(** * COVID-19 dashboard (covid_dashboard.py): a shallow embedding

    The script fetches JSON from disease.sh, reshapes it into pandas
    tables, filters them to 2020-2023 and renders charts and metric
    cards with streamlit.  The embedding follows the script line by
    line: JSON values as a tree with insertion-ordered objects, tables
    as column-oriented frames, Python exceptions as an error result, and
    the effects of the script (GET requests, widgets shown, the
    memoisation store) as explicit state passing. *)

From Stdlib Require Import ZArith String Ascii Bool Lia List.
From Stdlib Require Import Sorting.Sorted DecimalString.
Import ListNotations.

Local Open Scope string_scope.
Local Open Scope Z_scope.

Set Warnings "-register-all".

(** ** JSON values, as returned by [resp.json()] *)

(** Objects keep their members in insertion order, as Python dicts do;
    every number met by the script's arithmetic is an integer count. *)
Inductive json : Type :=
| JNull
| JBool (b : bool)
| JInt (z : Z)
| JStr (s : string)
| JArr (items : list json)
| JObj (members : list (string * json)).

(** ** Python exceptions *)

Inductive exn : Type :=
| ConnectionError
| HTTPError (status : Z)
| JSONDecodeError
| KeyError (key : string)
| ValueError
| TypeError
| AttributeError
| OutOfModel.  (* an input shape this embedding does not cover *)

Inductive result (A : Type) : Type :=
| Ok (a : A)
| Raise (e : exn).
Arguments Ok {A} a.
Arguments Raise {A} e.

Definition rbind {A B} (r : result A) (k : A -> result B) : result B :=
  match r with
  | Ok a => k a
  | Raise e => Raise e
  end.

Declare Scope result_scope.
Delimit Scope result_scope with result.
Notation "x <- e ;; k" := (rbind e (fun x => k))
  (at level 61, e at next level, right associativity) : result_scope.

(** [mapM] over the error result: the first failure wins. *)
Fixpoint traverse {A B} (f : A -> result B) (l : list A) : result (list B) :=
  match l with
  | [] => Ok []
  | a :: l' =>
      match f a with
      | Ok b => match traverse f l' with
                | Ok bs => Ok (b :: bs)
                | Raise e => Raise e
                end
      | Raise e => Raise e
      end
  end.

(** ** Dict and truthiness operations on JSON values *)

Fixpoint assoc {A} (k : string) (m : list (string * A)) : option A :=
  match m with
  | [] => None
  | (k', v) :: m' => if String.eqb k k' then Some v else assoc k m'
  end.

(** [j[k]] *)
Definition py_getitem (j : json) (k : string) : result json :=
  match j with
  | JObj m => match assoc k m with
              | Some v => Ok v
              | None => Raise (KeyError k)
              end
  | _ => Raise TypeError
  end.

(** [j.get(k, d)] *)
Definition py_get (j : json) (k : string) (d : json) : result json :=
  match j with
  | JObj m => match assoc k m with
              | Some v => Ok v
              | None => Ok d
              end
  | _ => Raise AttributeError
  end.

(** [k in j]; the script only reaches it after [j["cases"]] has
    succeeded, that is with a dict. *)
Definition py_in (k : string) (j : json) : result bool :=
  match j with
  | JObj m => match assoc k m with
              | Some _ => Ok true
              | None => Ok false
              end
  | _ => Raise TypeError
  end.

(** [list(j.keys())] and [list(j.values())] *)
Definition py_keys (j : json) : result (list string) :=
  match j with
  | JObj m => Ok (map fst m)
  | _ => Raise AttributeError
  end.

Definition py_values (j : json) : result (list json) :=
  match j with
  | JObj m => Ok (map snd m)
  | _ => Raise AttributeError
  end.

(** Python truthiness, as used by [if not data]. *)
Definition truthy (j : json) : bool :=
  match j with
  | JNull => false
  | JBool b => b
  | JInt z => negb (z =? 0)
  | JStr s => negb (String.eqb s "")
  | JArr l => match l with [] => false | _ => true end
  | JObj m => match m with [] => false | _ => true end
  end.

(** ** Dates *)

Record date : Type := mkdate { year : Z; month : Z; day : Z }.

(** ** Table cells and frames *)

Inductive cell : Type :=
| CJ (j : json)        (* a value taken over from the JSON payload *)
| CDate (d : date).    (* a parsed timestamp *)

(** The missing value ([None], [NaN], [NaT]). *)
Definition NA : cell := CJ JNull.

Definition notna (c : cell) : bool :=
  match c with
  | CJ JNull => false
  | _ => true
  end.

(** A frame stores its columns in order; [height] is the length of its
    index. *)
Record DataFrame : Type := mkframe {
  height : nat;
  columns : list (string * list cell)
}.

Definition column_names (df : DataFrame) : list string :=
  map fst (columns df).

(** [df.empty] *)
Definition empty (df : DataFrame) : bool :=
  orb (Nat.eqb (height df) 0)
      (match columns df with [] => true | _ => false end).

(** [df[name]] *)
Definition getitem (df : DataFrame) (name : string) : result (list cell) :=
  match assoc name (columns df) with
  | Some c => Ok c
  | None => Raise (KeyError name)
  end.

(** [df[name] = values]: an existing column is replaced in place, a new
    one is appended. *)
Fixpoint set_column (name : string) (values : list cell)
    (cols : list (string * list cell)) : list (string * list cell) :=
  match cols with
  | [] => [(name, values)]
  | (n, c) :: cols' =>
      if String.eqb name n then (n, values) :: cols'
      else (n, c) :: set_column name values cols'
  end.

Definition setitem (df : DataFrame) (name : string) (values : list cell)
  : result DataFrame :=
  if Nat.eqb (length values) (height df)
  then Ok (mkframe (height df) (set_column name values (columns df)))
  else Raise ValueError.

(** Keep the positions of [l] at which [mask] holds. *)
Fixpoint select {A} (mask : list bool) (l : list A) : list A :=
  match mask, l with
  | b :: mask', a :: l' => if b then a :: select mask' l' else select mask' l'
  | _, _ => []
  end.

(** [df[mask]] *)
Definition loc (df : DataFrame) (mask : list bool) : DataFrame :=
  mkframe (length (filter (fun b => b) (firstn (height df) mask)))
          (map (fun nc => (fst nc, select mask (snd nc))) (columns df)).

(** [df[[n1, ..., nk]]] *)
Definition project (df : DataFrame) (names : list string) : result DataFrame :=
  match traverse (fun n => match getitem df n with
                           | Ok c => Ok (n, c)
                           | Raise e => Raise e
                           end) names with
  | Ok cols => Ok (mkframe (height df) cols)
  | Raise e => Raise e
  end.

(** The row at position [i], as label-value pairs. *)
Definition row (df : DataFrame) (i : nat) : list (string * cell) :=
  map (fun nc => (fst nc, nth i (snd nc) NA)) (columns df).

(** Every column is as long as the index. *)
Definition well_formed (df : DataFrame) : Prop :=
  Forall (fun nc => length (snd nc) = height df) (columns df).

(** ** Building frames: [pd.DataFrame(...)] *)

(** A value of the dict handed to [pd.DataFrame]: a list or a scalar
    that is broadcast over the index. *)
Inductive column_arg : Type :=
| ColList (values : list cell)
| ColScalar (value : cell).

Definition arg_length (a : column_arg) : option nat :=
  match a with
  | ColList l => Some (length l)
  | ColScalar _ => None
  end.

(** The common length of the list-valued entries: [ValueError] when the
    lists disagree ("All arrays must be of the same length") or when
    there is no list at all ("If using all scalar values, you must pass
    an index"). *)
Definition list_lengths (d : list (string * column_arg)) : list nat :=
  flat_map (fun na => match arg_length (snd na) with
                      | Some n => [n]
                      | None => []
                      end) d.

Definition common_length (d : list (string * column_arg)) : result nat :=
  match list_lengths d with
  | [] => Raise ValueError
  | n :: ns => if forallb (Nat.eqb n) ns then Ok n else Raise ValueError
  end.

Definition broadcast (n : nat) (a : column_arg) : list cell :=
  match a with
  | ColList l => l
  | ColScalar c => repeat c n
  end.

(** [pd.DataFrame({name: values, ...})] *)
Definition frame_of_dict (d : list (string * column_arg)) : result DataFrame :=
  match common_length d with
  | Ok n => Ok (mkframe n (map (fun na => (fst na, broadcast n (snd na))) d))
  | Raise e => Raise e
  end.

(** Labels of a list of records, in order of first appearance. *)
Fixpoint add_labels (seen : list string) (ks : list string) : list string :=
  match ks with
  | [] => seen
  | k :: ks' =>
      if existsb (String.eqb k) seen then add_labels seen ks'
      else add_labels (seen ++ [k]) ks'
  end.

Fixpoint record_labels (seen : list string) (recs : list (list (string * json)))
  : list string :=
  match recs with
  | [] => seen
  | r :: recs' => record_labels (add_labels seen (map fst r)) recs'
  end.

Definition field (k : string) (r : list (string * json)) : cell :=
  match assoc k r with
  | Some v => CJ v
  | None => NA
  end.

Definition as_record (j : json) : result (list (string * json)) :=
  match j with
  | JObj m => Ok m
  | _ => Raise OutOfModel
  end.

Definition is_scalar (j : json) : bool :=
  match j with
  | JArr _ | JObj _ => false
  | _ => true
  end.

(** [pd.DataFrame(data)] on a parsed JSON value.  A list of objects gives
    one row per object and one column per label, missing fields being
    [NA]; [None] and the empty dict give the empty frame; a dict of
    scalars and a bare scalar are rejected by pandas.  Lists holding
    something else than objects, and dicts holding containers, are not
    covered. *)
Definition pd_DataFrame (data : json) : result DataFrame :=
  match data with
  | JArr items =>
      match traverse as_record items with
      | Ok recs =>
          Ok (mkframe (length recs)
                (map (fun k => (k, map (field k) recs)) (record_labels [] recs)))
      | Raise e => Raise e
      end
  | JNull => Ok (mkframe 0 [])
  | JObj [] => Ok (mkframe 0 [])
  | JObj m => if forallb (fun kv => is_scalar (snd kv)) m
              then Raise ValueError else Raise OutOfModel
  | _ => Raise ValueError
  end.

(** [pd.DataFrame(columns=names)] *)
Definition empty_frame (names : list string) : DataFrame :=
  mkframe 0 (map (fun n => (n, [])) names).

(** ** Column operations *)

(** [pd.to_datetime] on one cell, given the parser for date strings: a
    string is parsed or rejected, a missing value stays missing, a
    timestamp is kept. *)
Definition to_datetime_cell (parse : string -> option date) (c : cell)
  : result cell :=
  match c with
  | CJ (JStr s) => match parse s with
                   | Some d => Ok (CDate d)
                   | None => Raise ValueError
                   end
  | CJ JNull => Ok NA
  | CDate d => Ok (CDate d)
  | _ => Raise OutOfModel
  end.

(** [series.dt.year] on one cell *)
Definition year_cell (c : cell) : result cell :=
  match c with
  | CDate d => Ok (CJ (JInt (year d)))
  | CJ JNull => Ok NA
  | _ => Raise AttributeError
  end.

(** Elementwise comparison with an integer; a cell that is no integer
    compares false, as [NaN] does. *)
Definition cmp_cell (test : Z -> bool) (c : cell) : bool :=
  match c with
  | CJ (JInt z) => test z
  | _ => false
  end.

Definition in_range (y : Z) : bool := (2020 <=? y) && (y <=? 2023).

(** The integers of a column; Python's [sorted] and [int] need them. *)
Definition as_int (c : cell) : result Z :=
  match c with
  | CJ (JInt z) => Ok z
  | _ => Raise TypeError
  end.

(** [series.unique()]: first occurrences, in order. *)
Fixpoint unique_from (seen : list Z) (l : list Z) : list Z :=
  match l with
  | [] => []
  | z :: l' =>
      if existsb (Z.eqb z) seen then unique_from seen l'
      else z :: unique_from (z :: seen) l'
  end.

Definition unique (l : list Z) : list Z := unique_from [] l.

(** [sorted(...)] on integers *)
Fixpoint insert (z : Z) (l : list Z) : list Z :=
  match l with
  | [] => [z]
  | x :: l' => if z <=? x then z :: l else x :: insert z l'
  end.

Fixpoint sorted (l : list Z) : list Z :=
  match l with
  | [] => []
  | z :: l' => insert z (sorted l')
  end.

(** [series.max()] skips missing values and is [NaN] when nothing is
    left; the script applies [int(...)] to it at once, which rejects
    [NaN] with a [ValueError].  [max_int] is the two steps together on a
    column of integers and missing values. *)
Fixpoint present (col : list cell) : result (list Z) :=
  match col with
  | [] => Ok []
  | CJ JNull :: col' => present col'
  | CJ (JInt z) :: col' =>
      match present col' with
      | Ok zs => Ok (z :: zs)
      | Raise e => Raise e
      end
  | _ :: _ => Raise OutOfModel
  end.

Fixpoint maximum (z : Z) (l : list Z) : Z :=
  match l with
  | [] => z
  | x :: l' => maximum (Z.max z x) l'
  end.

Definition max_int (col : list cell) : result Z :=
  match present col with
  | Ok [] => Raise ValueError
  | Ok (z :: zs) => Ok (maximum z zs)
  | Raise e => Raise e
  end.

(** ** Formatting *)

(** [str(n)] *)
Definition str (z : Z) : string := NilZero.string_of_int (Z.to_int z).

(** Commas between groups of three, on the digits in reverse order. *)
Fixpoint group3 (ds : list ascii) : list ascii :=
  match ds with
  | a :: b :: c :: ((_ :: _) as rest) => a :: b :: c :: ","%char :: group3 rest
  | _ => ds
  end.

(** [f"{n:,}"] *)
Definition format_comma (z : Z) : string :=
  let digits := list_ascii_of_string (str (Z.abs z)) in
  let body := string_of_list_ascii (rev (group3 (rev digits))) in
  if z <? 0 then "-" ++ body else body.

Definition lower_char (c : ascii) : ascii :=
  let n := nat_of_ascii c in
  if (Nat.leb 65 n && Nat.leb n 90)%bool then ascii_of_nat (n + 32) else c.

(** [s.lower()] on ASCII text *)
Fixpoint lower (s : string) : string :=
  match s with
  | EmptyString => EmptyString
  | String c s' => String (lower_char c) (lower s')
  end.

(** ** The date strings of disease.sh *)

(** The service writes dates as M/D/YY.  [parse_mdy] is the reader of the
    sample worlds further down: it reads three groups of digits
    separated by slashes as [pd.to_datetime] reads them.  The first
    group is the month, unless it cannot be one and the second can, in
    which case the day comes first; a two-digit year below 69 lies in
    the 2000s and from 69 on in the 1900s; a four-digit year is taken as
    it is when a pandas timestamp can hold it (1678 to 2261); impossible
    dates and years of another length are rejected.  Layouts without
    slashes are outside its domain; the theorems on the tables take the
    reader as a parameter. *)
Definition digit (c : ascii) : option Z :=
  let n := nat_of_ascii c in
  if (Nat.leb 48 n && Nat.leb n 57)%bool then Some (Z.of_nat (n - 48)) else None.

Fixpoint number_from (acc : Z) (s : string) : option Z :=
  match s with
  | EmptyString => Some acc
  | String c s' => match digit c with
                   | Some d => number_from (10 * acc + d) s'
                   | None => None
                   end
  end.

Definition number (s : string) : option Z :=
  match s with
  | EmptyString => None
  | _ => number_from 0 s
  end.

Fixpoint split_slash (cur : string) (s : string) : list string :=
  match s with
  | EmptyString => [cur]
  | String c s' =>
      if Ascii.eqb c "/" then cur :: split_slash "" s'
      else split_slash (cur ++ String c "") s'
  end.

Definition leap (y : Z) : bool :=
  ((y mod 4 =? 0) && negb (y mod 100 =? 0)) || (y mod 400 =? 0).

Definition days_in_month (y m : Z) : Z :=
  if m =? 2 then (if leap y then 29 else 28)
  else if (m =? 4) || (m =? 6) || (m =? 9) || (m =? 11) then 30
  else 31.

Definition full_year (ys : string) (y : Z) : option Z :=
  if Nat.eqb (String.length ys) 2
  then Some (if y <? 69 then 2000 + y else 1900 + y)
  else if Nat.eqb (String.length ys) 4 && (1678 <=? y) && (y <=? 2261)
       then Some y
       else None.

Definition a_date (y m d : Z) : option date :=
  if (1 <=? m) && (m <=? 12) && (1 <=? d) && (d <=? days_in_month y m)
  then Some (mkdate y m d) else None.

Definition parse_mdy (s : string) : option date :=
  match split_slash "" s with
  | [a; b; ys] =>
      match number a, number b, number ys with
      | Some x, Some z, Some y =>
          match full_year ys y with
          | Some yyyy =>
              if (12 <? x) && (z <=? 12) then a_date yyyy z x else a_date yyyy x z
          | None => None
          end
      | _, _, _ => None
      end
  | _ => None
  end.

(** ** What the script shows *)

Inductive figure : Type :=
| ScatterGeo (data : DataFrame) (lat lon size color hover_name title : string)
| Line (data : DataFrame) (x : string) (y : list string) (title : string).

Inductive widget : Type :=
| WTitle (text : string)
| WPlotly (fig : figure)
| WMetric (label value : string)
| WSubheader (text : string)
| WWarning (text : string)
| WInfo (text : string).

(** ** The world of a run: network, clock, user and memoisation store *)

Inductive reply : Type :=
| Unreachable                                        (* transport failure *)
| Response (status_code : Z) (body : option json).   (* [None]: not JSON *)

(** The key of a memoised call: the function and its argument values. *)
Inductive call : Type :=
| Call_covid (country : option string)
| Call_vaccine (country : string)
| Call_country.

Definition call_eqb (a b : call) : bool :=
  match a, b with
  | Call_covid None, Call_covid None => true
  | Call_covid (Some x), Call_covid (Some y) => String.eqb x y
  | Call_vaccine x, Call_vaccine y => String.eqb x y
  | Call_country, Call_country => true
  | _, _ => false
  end.

Record world : Type := mkworld {
  clock : Z;                                 (* seconds *)
  net : string -> reply;                     (* what a GET of a URL meets *)
  picks : string -> nat;                     (* the user's choice per control *)
  sent : list string;                        (* GETs issued, oldest first *)
  shown : list widget;                       (* widgets shown, oldest first *)
  memo : list (call * (Z * DataFrame))       (* key, time stored, value *)
}.

(** State passing with exceptions; a raise keeps the state reached. *)
Definition M (A : Type) : Type := world -> result A * world.

Definition ret {A} (a : A) : M A := fun w => (Ok a, w).

Definition bind {A B} (m : M A) (k : A -> M B) : M B :=
  fun w => match m w with
           | (Ok a, w') => k a w'
           | (Raise e, w') => (Raise e, w')
           end.

Definition lift {A} (r : result A) : M A := fun w => (r, w).

Declare Scope run_scope.
Delimit Scope run_scope with run.
Notation "x <~ e ;; k" := (bind e (fun x => k))
  (at level 61, e at next level, right associativity) : run_scope.
Notation "e ;;; k" := (bind e (fun _ => k))
  (at level 61, right associativity) : run_scope.

(** The world after one more GET, and after one more widget. *)
Definition sending (url : string) (w : world) : world :=
  mkworld (clock w) (net w) (picks w) (sent w ++ [url]) (shown w) (memo w).

Definition showing (x : widget) (w : world) : world :=
  mkworld (clock w) (net w) (picks w) (sent w) (shown w ++ [x]) (memo w).

Definition storing (m : list (call * (Z * DataFrame))) (w : world) : world :=
  mkworld (clock w) (net w) (picks w) (sent w) (shown w) m.

(** [requests.get(url)]: one GET; a transport failure raises. *)
Definition answer (r : reply) : result reply :=
  match r with
  | Unreachable => Raise ConnectionError
  | _ => Ok r
  end.

Definition requests_get (url : string) : M reply :=
  fun w => (answer (net w url), sending url w).

(** [resp.raise_for_status()]: client and server error codes raise. *)
Definition raise_for_status (resp : reply) : result unit :=
  match resp with
  | Response s _ => if (400 <=? s) && (s <? 600) then Raise (HTTPError s) else Ok tt
  | Unreachable => Raise ConnectionError
  end.

(** [resp.json()] *)
Definition resp_json (resp : reply) : result json :=
  match resp with
  | Response _ (Some j) => Ok j
  | _ => Raise JSONDecodeError
  end.

Definition show (x : widget) : M unit :=
  fun w => (Ok tt, showing x w).

(** [st.sidebar.selectbox(label, options)]: the option the user picked,
    the first one by default, [None] when there is nothing to pick. *)
Definition selectbox {A} (label : string) (options : list A) : M (option A) :=
  fun w => (Ok match nth_error options (picks w label) with
               | Some x => Some x
               | None => hd_error options
               end, w).

(** ** The memoisation layer *)

(** Modelled from the spec: the decorator [st.cache_data(ttl=3600)] is
    streamlit's and not part of the script.  A call is looked up by its
    key; an entry younger than [ttl] seconds is returned as it is, without
    running the function; otherwise the function runs and its table is
    stored with the time of the call.  A call that raises stores
    nothing. *)
Definition ttl : Z := 3600.

Fixpoint memo_find (k : call) (m : list (call * (Z * DataFrame)))
  : option (Z * DataFrame) :=
  match m with
  | [] => None
  | (k', e) :: m' => if call_eqb k k' then Some e else memo_find k m'
  end.

Definition memo_store (k : call) (e : Z * DataFrame)
    (m : list (call * (Z * DataFrame))) : list (call * (Z * DataFrame)) :=
  (k, e) :: filter (fun ke => negb (call_eqb k (fst ke))) m.

Definition fresh (w : world) (k : call) : option DataFrame :=
  match memo_find k (memo w) with
  | Some (t, df) => if clock w <? t + ttl then Some df else None
  | None => None
  end.

Definition cache_data (k : call) (f : M DataFrame) : M DataFrame :=
  fun w =>
    match fresh w k with
    | Some df => (Ok df, w)
    | None =>
        match f w with
        | (Ok df, w') =>
            (Ok df, storing (memo_store k (clock w', df) (memo w')) w')
        | (Raise e, w') => (Raise e, w')
        end
    end.
(** ** The script *)

Section Dashboard.

(** [pd.to_datetime] on one date string; pandas is not part of the
    script, so the parser is a parameter. *)
Variable to_datetime : string -> option date.

(** Lines 36-38 and 52-54:
    [df["date"] = pd.to_datetime(df["date"])],
    [df["year"] = df["date"].dt.year],
    [df = df[(df["year"] >= 2020) & (df["year"] <= 2023)]]. *)
Definition year_mask (years : list cell) : list bool :=
  map (fun p => andb (fst p) (snd p))
      (combine (map (cmp_cell (fun y => 2020 <=? y)) years)
               (map (cmp_cell (fun y => y <=? 2023)) years)).

Definition restrict_years (df : DataFrame) : result DataFrame :=
  (dates <- getitem df "date" ;;
   parsed <- traverse (to_datetime_cell to_datetime) dates ;;
   df1 <- setitem df "date" parsed ;;
   dates1 <- getitem df1 "date" ;;
   years <- traverse year_cell dates1 ;;
   df2 <- setitem df1 "year" years ;;
   ys <- getitem df2 "year" ;;
   Ok (loc df2 (year_mask ys)))%result.

Definition str_cells (l : list string) : list cell := map (fun k => CJ (JStr k)) l.

(** Lines 18-23: the frame of the global history. *)
Definition global_frame (js : json) : result DataFrame :=
  (c1 <- py_getitem js "cases" ;;
   dates <- py_keys c1 ;;
   c2 <- py_getitem js "cases" ;;
   confirmed <- py_values c2 ;;
   d <- py_getitem js "deaths" ;;
   deaths <- py_values d ;;
   has <- py_in "recovered" js ;;
   recovered <- (if has : bool
                 then r <- py_get js "recovered" (JObj []) ;;
                      vs <- py_values r ;;
                      Ok (ColList (map CJ vs))
                 else Ok (ColScalar NA)) ;;
   frame_of_dict [("date", ColList (str_cells dates));
                  ("confirmed", ColList (map CJ confirmed));
                  ("deaths", ColList (map CJ deaths));
                  ("recovered", recovered)])%result.

(** Lines 29-35: the frame of a country's history. *)
Definition country_frame (js : json) : result DataFrame :=
  (timeline <- py_get js "timeline" (JObj []) ;;
   c1 <- py_getitem timeline "cases" ;;
   dates <- py_keys c1 ;;
   c2 <- py_getitem timeline "cases" ;;
   confirmed <- py_values c2 ;;
   d <- py_getitem timeline "deaths" ;;
   deaths <- py_values d ;;
   has <- py_in "recovered" timeline ;;
   recovered <- (if has : bool
                 then r <- py_getitem timeline "recovered" ;;
                      vs <- py_values r ;;
                      Ok (ColList (map CJ vs))
                 else Ok (ColScalar NA)) ;;
   frame_of_dict [("date", ColList (str_cells dates));
                  ("confirmed", ColList (map CJ confirmed));
                  ("deaths", ColList (map CJ deaths));
                  ("recovered", recovered)])%result.

Definition url_global : string :=
  "https://disease.sh/v3/covid-19/historical/all?lastdays=all".

Definition url_history (country : string) : string :=
  "https://disease.sh/v3/covid-19/historical/" ++ country ++ "?lastdays=all".

Definition url_vaccine (country : string) : string :=
  "https://disease.sh/v3/covid-19/vaccine/coverage/countries/" ++ country
  ++ "?lastdays=all&fullData=true".

Definition url_countries : string := "https://disease.sh/v3/covid-19/countries".

(** [country is None or country.lower() == "global"] *)
Definition is_global (country : option string) : bool :=
  match country with
  | None => true
  | Some c => String.eqb (lower c) "global"
  end.

(** The three functions as written; the decorator is applied to them
    further down. *)

Definition load_covid_data (country : option string) : M DataFrame :=
  (match (if is_global country then None else country) with
   | None =>
       resp <~ requests_get url_global ;;
       lift (raise_for_status resp) ;;;
       js <~ lift (resp_json resp) ;;
       df <~ lift (global_frame js) ;;
       lift (restrict_years df)
   | Some c =>
       resp <~ requests_get (url_history c) ;;
       lift (raise_for_status resp) ;;;
       js <~ lift (resp_json resp) ;;
       df <~ lift (country_frame js) ;;
       lift (restrict_years df)
   end)%run.

Definition load_vaccine_data (country : string) : M DataFrame :=
  (resp <~ requests_get (url_vaccine country) ;;
   lift (raise_for_status resp) ;;;
   js <~ lift (resp_json resp) ;;
   data <~ lift (py_get js "timeline" (JArr [])) ;;
   if negb (truthy data) then ret (empty_frame ["date"; "total"])
   else
     df <~ lift (pd_DataFrame data) ;;
     lift (restrict_years df))%run.

(** [x.get("lat")] on a cell of the [countryInfo] column *)
Definition info_get (k : string) (c : cell) : result cell :=
  match c with
  | CJ (JObj m) => Ok (field k m)
  | _ => Raise AttributeError
  end.

Definition load_country_data : M DataFrame :=
  (resp <~ requests_get url_countries ;;
   data <~ lift (resp_json resp) ;;
   lift (df <- pd_DataFrame data ;;
         info <- getitem df "countryInfo" ;;
         lats <- traverse (info_get "lat") info ;;
         df1 <- setitem df "lat" lats ;;
         info1 <- getitem df1 "countryInfo" ;;
         longs <- traverse (info_get "long") info1 ;;
         df2 <- setitem df1 "long" longs ;;
         project df2 ["country"; "cases"; "deaths"; "recovered"; "lat"; "long"])%result)%run.

(** [@st.cache_data(ttl=3600)]: what the script calls under the three
    names. *)
Definition load_covid_data_cached (country : option string) : M DataFrame :=
  cache_data (Call_covid country) (load_covid_data country).

Definition load_vaccine_data_cached (country : string) : M DataFrame :=
  cache_data (Call_vaccine country) (load_vaccine_data country).

Definition load_country_data_cached : M DataFrame :=
  cache_data Call_country load_country_data.

(** Line 90: the country control. *)
Definition country_options : list string :=
  ["Global"; "USA"; "India"; "Brazil"; "Germany"; "France"; "UK"; "China"; "Japan"].

(** Line 91: [country_input if country_input != "Global" else None] *)
Definition use_country (country_input : option string) : option string :=
  match country_input with
  | Some c => if negb (String.eqb c "Global") then Some c else None
  | None => None
  end.

(** Line 97: [sorted(df["year"].unique())] *)
Definition available_years (df : DataFrame) : result (list Z) :=
  (ys <- getitem df "year" ;;
   zs <- traverse as_int ys ;;
   Ok (sorted (unique zs)))%result.

(** Line 99: [df[df["year"] == selected_year]] *)
Definition year_is (selected_year : option Z) (c : cell) : bool :=
  cmp_cell (fun y => match selected_year with
                     | Some s => y =? s
                     | None => false
                     end) c.

Definition filtered (df : DataFrame) (selected_year : option Z) : result DataFrame :=
  (ys <- getitem df "year" ;;
   Ok (loc df (map (year_is selected_year) ys)))%result.

(** Lines 102-104 *)
Definition total_confirmed (filtered : DataFrame) : result Z :=
  (c <- getitem filtered "confirmed" ;; max_int c)%result.

Definition total_deaths (filtered : DataFrame) : result Z :=
  (c <- getitem filtered "deaths" ;; max_int c)%result.

Definition total_recovered (filtered : DataFrame) : result (option Z) :=
  (r <- getitem filtered "recovered" ;;
   if existsb notna r
   then r' <- getitem filtered "recovered" ;;
        z <- max_int r' ;;
        Ok (Some z)
   else Ok None)%result.

(** Lines 107-109: the three metric cards. *)
Definition metric_cards (confirmed deaths : Z) (recovered : option Z) : list widget :=
  [WMetric "Total Confirmed" (format_comma confirmed);
   WMetric "Total Deaths" (format_comma deaths);
   WMetric "Total Recovered" (match recovered with
                              | Some r => format_comma r
                              | None => "N/A"
                              end)].

(** Line 112 *)
Definition y_cols (recovered : option Z) : list string :=
  ["confirmed"; "deaths"] ++ (match recovered with
                              | Some _ => ["recovered"]
                              | None => []
                              end).

Definition str_opt {A} (f : A -> string) (o : option A) : string :=
  match o with
  | Some a => f a
  | None => "None"
  end.

(** Lines 113-120 *)
Definition trend_chart (filtered : DataFrame) (country_input : option string)
    (selected_year : option Z) (recovered : option Z) : widget :=
  WPlotly (Line filtered "date" (y_cols recovered)
             ("Cumulative COVID-19 Trends: " ++ str_opt (fun s => s) country_input
              ++ " (" ++ str_opt str selected_year ++ ")")).

Fixpoint show_all (l : list widget) : M unit :=
  match l with
  | [] => ret tt
  | x :: l' => bind (show x) (fun _ => show_all l')
  end.

(** Lines 125-138: what is shown for a vaccination table. *)
Definition vaccine_panel (country : string) (df_vaccine : DataFrame) : M unit :=
  (if negb (empty df_vaccine) then
     total_vaccines <~ lift (t <- getitem df_vaccine "total" ;; max_int t)%result ;;
     show (WSubheader ("💉 COVID-19 Vaccinations in " ++ country)) ;;;
     show (WMetric "Total Vaccines Administered" (format_comma total_vaccines)) ;;;
     show (WPlotly (Line df_vaccine "date" ["total"]
                      ("Daily Cumulative Vaccinations: " ++ country ++ " (2020-2023)")))
   else show (WWarning ("No vaccination data available for " ++ country ++ ".")))%run.

(** Lines 123-140: the vaccine section.  [if use_country:] is false for
    [None] and for the empty string. *)
Definition vaccine_section (use_country : option string) : M unit :=
  (match use_country with
   | Some c =>
       if String.eqb c ""
       then show (WInfo "Select a specific country to view vaccination data.")
       else df_vaccine <~ load_vaccine_data_cached c ;; vaccine_panel c df_vaccine
   | None => show (WInfo "Select a specific country to view vaccination data.")
   end)%run.

(** The whole script, top to bottom: one render pass. *)
Definition dashboard : M unit :=
  (show (WTitle "🌍 COVID‑19 Dashboard with Vaccinations (disease.sh, 2020‑2023)") ;;;
   df <~ load_country_data_cached ;;
   show (WPlotly (ScatterGeo df "lat" "long" "cases" "cases" "country"
                    "Total COVID-19 Cases by Country")) ;;;
   country_input <~ selectbox "Select Country" country_options ;;
   df <~ load_covid_data_cached (use_country country_input) ;;
   years <~ lift (available_years df) ;;
   selected_year <~ selectbox "Select Year" years ;;
   filtered <~ lift (filtered df selected_year) ;;
   confirmed <~ lift (total_confirmed filtered) ;;
   deaths <~ lift (total_deaths filtered) ;;
   recovered <~ lift (total_recovered filtered) ;;
   show_all (metric_cards confirmed deaths recovered) ;;;
   show (trend_chart filtered country_input selected_year recovered) ;;;
   vaccine_section (use_country country_input))%run.

End Dashboard.

(** The memoised call behind a key, and the URL its function requests. *)
Definition fetch (to_datetime : string -> option date) (k : call) : M DataFrame :=
  match k with
  | Call_covid country => load_covid_data to_datetime country
  | Call_vaccine country => load_vaccine_data to_datetime country
  | Call_country => load_country_data
  end.

Definition url_of (k : call) : string :=
  match k with
  | Call_covid country =>
      match (if is_global country then None else country) with
      | None => url_global
      | Some c => url_history c
      end
  | Call_vaccine country => url_vaccine country
  | Call_country => url_countries
  end.

(** The memoised function behind a key, as the script calls it. *)
Definition fetch_cached (to_datetime : string -> option date) (k : call) : M DataFrame :=
  match k with
  | Call_covid country => load_covid_data_cached to_datetime country
  | Call_vaccine country => load_vaccine_data_cached to_datetime country
  | Call_country => load_country_data_cached
  end.

(** ** Sample worlds *)

Definition quiet (reply_to : string -> reply) : world :=
  mkworld 0 reply_to (fun _ => 0%nat) [] [] [].

(** A global history without a recovered series, with one date outside
    2020-2023. *)
Definition global_payload : json :=
  JObj [("cases", JObj [("1/22/20", JInt 1); ("1/23/20", JInt 5); ("1/1/24", JInt 9)]);
        ("deaths", JObj [("1/22/20", JInt 0); ("1/23/20", JInt 2); ("1/1/24", JInt 4)])].

Definition global_world : world :=
  quiet (fun url => if String.eqb url url_global
                    then Response 200 (Some global_payload) else Unreachable).

(** The table that run returns. *)
Definition global_history : DataFrame :=
  mkframe 2
    [("date", [CDate (mkdate 2020 1 22); CDate (mkdate 2020 1 23)]);
     ("confirmed", [CJ (JInt 1); CJ (JInt 5)]);
     ("deaths", [CJ (JInt 0); CJ (JInt 2)]);
     ("recovered", [NA; NA]);
     ("year", [CJ (JInt 2020); CJ (JInt 2020)])].

(** A snapshot list of two countries, the second without "lat", served
    with status 500. *)
Definition countries_payload : json :=
  JArr [JObj [("country", JStr "Atlantis"); ("cases", JInt 1200); ("deaths", JInt 30);
              ("recovered", JInt 1100);
              ("countryInfo", JObj [("lat", JInt 35); ("long", JInt 25)])];
        JObj [("country", JStr "Lemuria"); ("cases", JInt 40); ("deaths", JInt 2);
              ("recovered", JInt 38);
              ("countryInfo", JObj [("long", JInt 70)])]].

Definition server_error_world : world :=
  quiet (fun url => if String.eqb url url_countries
                    then Response 500 (Some countries_payload) else Unreachable).

Definition snapshot_table : DataFrame :=
  mkframe 2
    [("country", [CJ (JStr "Atlantis"); CJ (JStr "Lemuria")]);
     ("cases", [CJ (JInt 1200); CJ (JInt 40)]);
     ("deaths", [CJ (JInt 30); CJ (JInt 2)]);
     ("recovered", [CJ (JInt 1100); CJ (JInt 38)]);
     ("lat", [CJ (JInt 35); NA]);
     ("long", [CJ (JInt 25); CJ (JInt 70)])].

(** The same list served with status 200, and a vaccination reply
    without timeline entries. *)
Definition snapshot_world : world :=
  quiet (fun url => if String.eqb url url_countries
                    then Response 200 (Some countries_payload) else Unreachable).

Definition no_vaccine_world : world :=
  quiet (fun url => if String.eqb url (url_vaccine "USA")
                    then Response 200 (Some (JObj [("country", JStr "USA");
                                                   ("timeline", JArr [])]))
                    else Unreachable).


(** A global history whose one case count is [null]. *)
Definition null_count_world : world :=
  quiet (fun url =>
           if String.eqb url url_global
           then Response 200 (Some (JObj [("cases", JObj [("1/22/20", JNull)]);
                                          ("deaths", JObj [("1/22/20", JInt 0)])]))
           else Unreachable).

Definition null_count_history : DataFrame :=
  mkframe 1
    [("date", [CDate (mkdate 2020 1 22)]);
     ("confirmed", [NA]);
     ("deaths", [CJ (JInt 0)]);
     ("recovered", [NA]);
     ("year", [CJ (JInt 2020)])].

(** A service that answers every GET with status 503. *)
Definition outage_world : world :=
  quiet (fun _ => Response 503 (Some (JObj [("message", JStr "Service Unavailable")]))).

(** A world in which one URL is answered with status 200 and a JSON
    body, and nothing else can be reached. *)
Definition serving (url : string) (js : json) : world :=
  quiet (fun u => if String.eqb u url then Response 200 (Some js) else Unreachable).

(** The value whose "cases", "deaths" and "recovered" members the script
    reads: the payload for the global history, [js.get("timeline", {})]
    for a country. *)
Definition history_series (country : option string) (m : list (string * json)) : json :=
  if is_global country then JObj m
  else match assoc "timeline" m with
       | Some t => t
       | None => JObj []
       end.

(** A vaccination timeline of three records, the last one dated 2024. *)
Definition vaccine_payload : json :=
  JObj [("country", JStr "USA");
        ("timeline",
         JArr [JObj [("total", JInt 100); ("daily", JInt 100); ("date", JStr "12/1/20")];
               JObj [("total", JInt 2500); ("daily", JInt 2400); ("date", JStr "12/2/20")];
               JObj [("total", JInt 9000); ("daily", JInt 6500); ("date", JStr "1/1/24")]])].

(** A world without network, and one that serves the snapshot list and
    the global history. *)
Definition offline_world : world := quiet (fun _ => Unreachable).

Definition full_world : world :=
  quiet (fun url =>
           if String.eqb url url_countries then Response 200 (Some countries_payload)
           else if String.eqb url url_global then Response 200 (Some global_payload)
           else Unreachable).



(** A world in which the user has picked the second country option, USA,
    and the service answers for the snapshot, the history of USA and its
    vaccinations. *)
Definition usa_world : world :=
  mkworld 0
    (fun url =>
       if String.eqb url url_countries then Response 200 (Some countries_payload)
       else if String.eqb url (url_history "USA")
       then Response 200 (Some (JObj [("country", JStr "USA");
                                      ("timeline", global_payload)]))
       else if String.eqb url (url_vaccine "USA") then Response 200 (Some vaccine_payload)
       else Unreachable)
    (fun label => if String.eqb label "Select Country" then 1%nat else 0%nat)
    [] [] [].

(** ** What the claims speak about *)

(** The rows of a frame, top to bottom. *)
Definition rows_of (df : DataFrame) : list (list (string * cell)) :=
  map (row df) (seq 0 (height df)).

(** A row of a history table, from a parsed date and the values found at
    the same position of the three series. *)
Definition history_row (x : date * json * json * cell) : list (string * cell) :=
  let '(d, c, dt, r) := x in
  [("date", CDate d); ("confirmed", CJ c); ("deaths", CJ dt); ("recovered", r);
   ("year", CJ (JInt (year d)))].

Definition retained (x : date * json * json * cell) : bool :=
  let '(d, _, _, _) := x in in_range (year d).

(** The recovered column of a history built from the object [m]: the
    values of its "recovered" member, or missing values throughout. *)
Definition recovered_column (m : list (string * json)) (n : nat) : list cell :=
  match assoc "recovered" m with
  | Some (JObj r) => map CJ (map snd r)
  | _ => repeat NA n
  end.

Definition recovered_fits (m : list (string * json)) (n : nat) : Prop :=
  match assoc "recovered" m with
  | Some (JObj r) => length r = n
  | Some _ => False
  | None => True
  end.

(** The object holding the series of a history payload: the payload
    itself for the global history, its "timeline" member for a country. *)
Definition series_of (country : option string) (js : json)
  : option (list (string * json)) :=
  match js with
  | JObj m =>
      if is_global country then Some m
      else match assoc "timeline" m with
           | Some (JObj tm) => Some tm
           | _ => None
           end
  | _ => None
  end.





(** A column of integer counts. *)
Definition integers (col : list cell) : Prop :=
  Forall (fun c => exists z, c = CJ (JInt z)) col.

(** What the vaccine section can add to the page for a selection: the
    hint when no country is selected; for a country the warning, or the
    subheader, the metric and the chart. *)
Definition vaccine_widgets (use_country : option string) (ws : list widget) : Prop :=
  match use_country with
  | None => ws = [WInfo "Select a specific country to view vaccination data."]
  | Some c =>
      ws = [WWarning ("No vaccination data available for " ++ c ++ ".")]
      \/ exists total df,
           ws = [WSubheader ("💉 COVID-19 Vaccinations in " ++ c);
                 WMetric "Total Vaccines Administered" (format_comma total);
                 WPlotly (Line df "date" ["total"]
                            ("Daily Cumulative Vaccinations: " ++ c ++ " (2020-2023)"))]
  end.

(** Line 8 and lines 70-87: the title and the bubble map of the page. *)
Definition page_title : widget :=
  WTitle "🌍 COVID‑19 Dashboard with Vaccinations (disease.sh, 2020‑2023)".

Definition bubble_map (snapshot : DataFrame) : widget :=
  WPlotly (ScatterGeo snapshot "lat" "long" "cases" "cases" "country"
             "Total COVID-19 Cases by Country").

(** The world once lines 106-120 have shown the three cards and the
    trend chart. *)
Definition after_trend (flt : DataFrame) (country_input : option string)
    (selected_year : option Z) (c d : Z) (r : option Z) (w : world) : world :=
  showing (trend_chart flt country_input selected_year r)
    (showing (WMetric "Total Recovered"
                (match r with Some x => format_comma x | None => "N/A" end))
       (showing (WMetric "Total Deaths" (format_comma d))
          (showing (WMetric "Total Confirmed" (format_comma c)) w))).

(** A status that [raise_for_status] lets pass. *)
Definition passes (s : Z) : Prop := s < 400 \/ 600 <= s.

(** The table each function builds from the reply to its one GET. *)
Definition covid_table (to_datetime : string -> option date)
    (country : option string) (r : reply) : result DataFrame :=
  (resp <- answer r ;;
   _ <- raise_for_status resp ;;
   js <- resp_json resp ;;
   df <- (if is_global country then global_frame js else country_frame js) ;;
   restrict_years to_datetime df)%result.

Definition vaccine_table (to_datetime : string -> option date) (r : reply)
  : result DataFrame :=
  (resp <- answer r ;;
   _ <- raise_for_status resp ;;
   js <- resp_json resp ;;
   data <- py_get js "timeline" (JArr []) ;;
   if negb (truthy data) then Ok (empty_frame ["date"; "total"])
   else df <- pd_DataFrame data ;; restrict_years to_datetime df)%result.

Definition country_table (r : reply) : result DataFrame :=
  (resp <- answer r ;;
   data <- resp_json resp ;;
   df <- pd_DataFrame data ;;
   info <- getitem df "countryInfo" ;;
   lats <- traverse (info_get "lat") info ;;
   df1 <- setitem df "lat" lats ;;
   info1 <- getitem df1 "countryInfo" ;;
   longs <- traverse (info_get "long") info1 ;;
   df2 <- setitem df1 "long" longs ;;
   project df2 ["country"; "cases"; "deaths"; "recovered"; "lat"; "long"])%result.

Definition table_of (to_datetime : string -> option date) (k : call) (r : reply)
  : result DataFrame :=
  match k with
  | Call_covid country => covid_table to_datetime country r
  | Call_vaccine _ => vaccine_table to_datetime r
  | Call_country => country_table r
  end.

(** A row carries a parsed date, the year of that date, and the year is
    one of 2020-2023. *)
Definition row_in_range (r : list (string * cell)) : Prop :=
  exists d, assoc "date" r = Some (CDate d)
            /\ assoc "year" r = Some (CJ (JInt (year d)))
            /\ 2020 <= year d <= 2023.

(** * Properties *)

(** ** Lists, results and frames *)

Lemma assoc_set_column_same name values cols :
  assoc name (set_column name values cols) = Some values.
Proof.
  induction cols as [|[n c] cols IH]; simpl.
  - now rewrite String.eqb_refl.
  - destruct (String.eqb name n) eqn:E; simpl; now rewrite E.
Qed.

Lemma assoc_set_column_other name other values cols :
  String.eqb other name = false ->
  assoc other (set_column name values cols) = assoc other cols.
Proof.
  intros Hne. induction cols as [|[n c] cols IH]; simpl.
  - now rewrite Hne.
  - destruct (String.eqb name n) eqn:E; simpl.
    + apply String.eqb_eq in E. subst n. now rewrite Hne.
    + now rewrite IH.
Qed.

Lemma assoc_map_snd {A B} (f : A -> B) k (m : list (string * A)) :
  assoc k (map (fun nc => (fst nc, f (snd nc))) m) = option_map f (assoc k m).
Proof.
  induction m as [|[n c] m IH]; simpl; auto.
  destruct (String.eqb k n); auto.
Qed.

Lemma traverse_Forall2 {A B} (f : A -> result B) l l' :
  traverse f l = Ok l' -> Forall2 (fun a b => f a = Ok b) l l'.
Proof.
  revert l'. induction l as [|a l IH]; simpl; intros l' H.
  - inversion H. constructor.
  - destruct (f a) eqn:Ea; try discriminate.
    destruct (traverse f l) eqn:El; try discriminate.
    inversion H; subst. constructor; auto.
Qed.

Lemma Forall2_traverse {A B} (f : A -> result B) l l' :
  Forall2 (fun a b => f a = Ok b) l l' -> traverse f l = Ok l'.
Proof.
  induction 1 as [|a b l l' Hab _ IH]; simpl; auto.
  now rewrite Hab, IH.
Qed.

Lemma traverse_length {A B} (f : A -> result B) l l' :
  traverse f l = Ok l' -> length l' = length l.
Proof.
  intros H. apply traverse_Forall2 in H. symmetry. eapply Forall2_length; eauto.
Qed.

Lemma select_map {A B} (f : A -> B) mask l :
  select mask (map f l) = map f (select mask l).
Proof.
  revert l. induction mask as [|b mask IH]; intros [|a l]; simpl; auto.
  destruct b; simpl; now rewrite IH.
Qed.

Lemma select_Forall2 {A B} (R : A -> B -> Prop) mask l l' :
  Forall2 R l l' -> Forall2 R (select mask l) (select mask l').
Proof.
  intros H. revert mask. induction H as [|a b l l' Hab _ IH]; intros [|m mask]; simpl;
    try constructor.
  destruct m; auto.
Qed.

Lemma select_length_count {A} mask (l : list A) :
  length mask = length l ->
  length (select mask l) = length (filter (fun b => b) mask).
Proof.
  revert l. induction mask as [|b mask IH]; intros [|a l]; simpl; try discriminate; auto.
  intros H. destruct b; simpl; auto.
Qed.

Lemma Forall2_nth {A B} (R : A -> B -> Prop) l l' i da db :
  Forall2 R l l' -> (i < length l)%nat -> R (nth i l da) (nth i l' db).
Proof.
  intros H. revert i. induction H as [|a b l l' Hab _ IH]; intros [|i] Hi; simpl in *;
    try lia; auto.
  apply IH. lia.
Qed.

Lemma assoc_row df name i :
  assoc name (row df i) = option_map (fun c => nth i c NA) (assoc name (columns df)).
Proof. unfold row. apply (assoc_map_snd (fun c => nth i c NA)). Qed.

Lemma assoc_loc df mask name :
  assoc name (columns (loc df mask)) = option_map (select mask) (assoc name (columns df)).
Proof. unfold loc. simpl. apply (assoc_map_snd (select mask)). Qed.

Lemma year_mask_cons c ys :
  year_mask (c :: ys)
  = (cmp_cell (fun y => 2020 <=? y) c && cmp_cell (fun y => y <=? 2023) c) :: year_mask ys.
Proof. reflexivity. Qed.

Lemma year_mask_length ys : length (year_mask ys) = length ys.
Proof.
  induction ys as [|c ys IH]; [reflexivity|].
  rewrite year_mask_cons. simpl. now f_equal.
Qed.

Lemma select_year_mask ys :
  Forall (fun c => exists y, c = CJ (JInt y) /\ 2020 <= y <= 2023)
         (select (year_mask ys) ys).
Proof.
  induction ys as [|c ys IH]; [constructor|].
  rewrite year_mask_cons. simpl.
  destruct (cmp_cell (fun y => 2020 <=? y) c && cmp_cell (fun y => y <=? 2023) c) eqn:E; auto.
  constructor; auto.
  apply andb_true_iff in E. destruct E as [E1 E2].
  destruct c as [[]|]; simpl in *; try discriminate.
  eexists; split; eauto. lia.
Qed.

(** ** The fetch functions issue one GET and build from its reply *)

Lemma fetch_once to_datetime k w :
  fetch to_datetime k w = (table_of to_datetime k (net w (url_of k)), sending (url_of k) w).
Proof.
  destruct k as [country|country|]; simpl.
  - unfold load_covid_data, covid_table.
    destruct (is_global country) eqn:Hg.
    + unfold bind, requests_get, lift.
      destruct (answer (net w url_global)) as [resp|]; simpl; auto.
      destruct (raise_for_status resp); simpl; auto.
      destruct (resp_json resp); simpl; auto.
      destruct (global_frame a0); simpl; auto.
    + destruct country as [c|]; [|discriminate].
      unfold bind, requests_get, lift.
      destruct (answer (net w (url_history c))) as [resp|]; simpl; auto.
      destruct (raise_for_status resp); simpl; auto.
      destruct (resp_json resp); simpl; auto.
      destruct (country_frame a0); simpl; auto.
  - unfold load_vaccine_data, vaccine_table, bind, requests_get, lift, ret.
    destruct (answer (net w (url_vaccine country))) as [resp|]; simpl; auto.
    destruct (raise_for_status resp); simpl; auto.
    destruct (resp_json resp) as [js|]; simpl; auto.
    destruct (py_get js "timeline" (JArr [])) as [data|]; simpl; auto.
    destruct (negb (truthy data)); simpl; auto.
    destruct (pd_DataFrame data); simpl; auto.
  - unfold load_country_data, country_table, bind, requests_get, lift.
    destruct (answer (net w url_countries)) as [resp|]; simpl; auto.
    destruct (resp_json resp) as [js|]; simpl; auto.
Qed.

(** ** Rows of a frame whose columns are maps over one list *)

Lemma map_nth_seq {A} (l : list A) d :
  map (fun i => nth i l d) (seq 0 (length l)) = l.
Proof.
  induction l as [|a l IH]; simpl; auto.
  f_equal. rewrite <- seq_shift, map_map. exact IH.
Qed.

Lemma rows_of_maps {A} (z : list A) (gs : list (string * (A -> cell))) :
  rows_of (mkframe (length z) (map (fun ng => (fst ng, map (snd ng) z)) gs))
  = map (fun a => map (fun ng => (fst ng, snd ng a)) gs) z.
Proof.
  unfold rows_of, row. simpl.
  destruct z as [|a0 z']; [reflexivity|].
  set (z := a0 :: z').
  rewrite <- (map_nth_seq z a0) at 2. rewrite map_map.
  apply map_ext_in. intros i Hi. apply in_seq in Hi.
  rewrite map_map. apply map_ext. intros [n g]. cbn [fst snd]. f_equal.
  rewrite (nth_indep _ NA (g a0)) by (rewrite length_map; lia).
  apply map_nth.
Qed.

Lemma select_filter {A} (p : A -> bool) (l : list A) :
  select (map p l) l = filter p l.
Proof. induction l as [|a l IH]; simpl; auto. destruct (p a); now rewrite IH. Qed.

Lemma count_filter {A} (p : A -> bool) (l : list A) :
  length (filter (fun b => b) (map p l)) = length (filter p l).
Proof. induction l as [|a l IH]; simpl; auto. destruct (p a); simpl; now rewrite IH. Qed.

Lemma map_fst_combine {A B} (l : list A) (l' : list B) :
  length l' = length l -> map fst (combine l l') = l.
Proof.
  revert l'. induction l as [|a l IH]; intros [|b l'] H; simpl in *; try discriminate; auto.
  f_equal. apply IH. lia.
Qed.

Lemma map_snd_combine {A B} (l : list A) (l' : list B) :
  length l' = length l -> map snd (combine l l') = l'.
Proof.
  revert l'. induction l as [|a l IH]; intros [|b l'] H; simpl in *; try discriminate; auto.
  f_equal. apply IH. lia.
Qed.

Lemma year_mask_dates ds :
  year_mask (map (fun d => CJ (JInt (year d))) ds) = map (fun d => in_range (year d)) ds.
Proof.
  induction ds as [|d ds IH]; [reflexivity|].
  simpl map. rewrite year_mask_cons, IH. reflexivity.
Qed.

Lemma traverse_year_dates ds :
  traverse year_cell (map CDate ds) = Ok (map (fun d => CJ (JInt (year d))) ds).
Proof. induction ds as [|d ds IH]; simpl; auto. now rewrite IH. Qed.

Section Tables.

Variable to_datetime : string -> option date.

(** The three statements of lines 36-38, read backwards from a result. *)
Lemma restrict_years_inv df df' :
  restrict_years to_datetime df = Ok df' ->
  exists dates parsed years,
    getitem df "date" = Ok dates
    /\ traverse (to_datetime_cell to_datetime) dates = Ok parsed
    /\ length parsed = height df
    /\ traverse year_cell parsed = Ok years
    /\ df' = loc (mkframe (height df)
                    (set_column "year" years (set_column "date" parsed (columns df))))
                 (year_mask years).
Proof.
  unfold restrict_years. intros H.
  destruct (getitem df "date") as [dates|] eqn:Hd; [|discriminate]. simpl in H.
  destruct (traverse (to_datetime_cell to_datetime) dates) as [parsed|] eqn:Hp;
    [|discriminate]. simpl in H.
  unfold setitem at 1 in H.
  destruct (Nat.eqb (length parsed) (height df)) eqn:Hl; [|discriminate]. simpl in H.
  unfold getitem at 1 in H. simpl in H. rewrite assoc_set_column_same in H. simpl in H.
  destruct (traverse year_cell parsed) as [years|] eqn:Hy; [|discriminate]. simpl in H.
  unfold setitem in H. simpl in H.
  destruct (Nat.eqb (length years) (height df)) eqn:Hl'; [|discriminate]. simpl in H.
  unfold getitem in H. simpl in H. rewrite assoc_set_column_same in H. simpl in H.
  inversion H; subst df'.
  exists dates, parsed, years. apply Nat.eqb_eq in Hl. auto 6.
Qed.

Lemma restrict_years_rows df df' :
  restrict_years to_datetime df = Ok df' ->
  forall i, (i < height df')%nat -> row_in_range (row df' i).
Proof.
  intros H i Hi.
  destruct (restrict_years_inv _ _ H) as (dates & parsed & years & _ & _ & Hl & Hy & ->).
  pose proof (traverse_length _ _ _ Hy) as Hly.
  assert (Hh : height (loc (mkframe (height df)
                    (set_column "year" years (set_column "date" parsed (columns df))))
                 (year_mask years)) = length (select (year_mask years) parsed)).
  { unfold loc. simpl. rewrite firstn_all2 by (rewrite year_mask_length; lia).
    symmetry. apply select_length_count. rewrite year_mask_length. lia. }
  rewrite Hh in Hi.
  pose proof (select_Forall2 _ (year_mask years) _ _ (traverse_Forall2 _ _ _ Hy)) as HF.
  pose proof (Forall2_nth _ _ _ i NA NA HF Hi) as Hrel. simpl in Hrel.
  pose proof (select_year_mask years) as Hin.
  rewrite Forall_forall in Hin.
  assert (Hi' : (i < length (select (year_mask years) years))%nat).
  { erewrite <- Forall2_length by exact HF. exact Hi. }
  destruct (Hin _ (nth_In _ NA Hi')) as (y & Hy' & Hr).
  rewrite Hy' in Hrel.
  destruct (nth i (select (year_mask years) parsed) NA) as [[]|d] eqn:Hn;
    simpl in Hrel; try discriminate.
  inversion Hrel; subst y.
  exists d. rewrite !assoc_row, !assoc_loc. simpl.
  rewrite assoc_set_column_same.
  rewrite assoc_set_column_other by reflexivity.
  rewrite assoc_set_column_same. simpl.
  rewrite Hn, Hy'. auto.
Qed.

Lemma traverse_date_strings dates ds :
  Forall2 (fun k d => to_datetime k = Some d) dates ds ->
  traverse (to_datetime_cell to_datetime) (str_cells dates) = Ok (map CDate ds).
Proof.
  unfold str_cells.
  induction 1 as [|k d dates ds Hk _ IH]; [reflexivity|].
  cbn [map traverse to_datetime_cell]. now rewrite Hk, IH.
Qed.

(** Lines 36-38 on the frame of lines 18-23 (or 30-35): the rows of the
    result are the positions of the four columns read side by side, those
    of a year outside 2020-2023 left out. *)
Lemma restrict_years_history dates ds cs dts rec :
  Forall2 (fun k d => to_datetime k = Some d) dates ds ->
  length cs = length ds -> length dts = length ds -> length rec = length ds ->
  exists df,
    restrict_years to_datetime
      (mkframe (length dates)
         [("date", str_cells dates); ("confirmed", map CJ cs);
          ("deaths", map CJ dts); ("recovered", rec)]) = Ok df
    /\ column_names df = ["date"; "confirmed"; "deaths"; "recovered"; "year"]
    /\ getitem df "recovered"
       = Ok (select (map (fun d => in_range (year d)) ds) rec)
    /\ rows_of df
       = map history_row
           (filter retained (combine (combine (combine ds cs) dts) rec)).
Proof.
  intros Hp Hc Hd Hr.
  pose proof (Forall2_length Hp) as Hn.
  unfold restrict_years, getitem. simpl.
  rewrite (traverse_date_strings _ _ Hp). simpl.
  unfold setitem at 1. simpl. rewrite length_map, Hn, Nat.eqb_refl. simpl.
  rewrite traverse_year_dates. simpl.
  unfold setitem. simpl. rewrite length_map, Nat.eqb_refl. simpl.
  eexists. split; [reflexivity|]. split; [reflexivity|]. split.
  { unfold loc. simpl. now rewrite year_mask_dates. }
  rewrite year_mask_dates.
  set (z := combine (combine (combine ds cs) dts) rec).
  assert (Hz4 : map snd z = rec) by (apply map_snd_combine; rewrite !length_combine; lia).
  assert (Hz3 : map (fun x => snd (fst x)) z = dts).
  { rewrite <- (map_map fst snd). unfold z. rewrite map_fst_combine
      by (rewrite !length_combine; lia).
    apply map_snd_combine. rewrite length_combine; lia. }
  assert (Hz2 : map (fun x => snd (fst (fst x))) z = cs).
  { rewrite <- (map_map fst (fun x => snd (fst x))). unfold z. rewrite map_fst_combine
      by (rewrite !length_combine; lia).
    rewrite <- (map_map fst snd). rewrite map_fst_combine by (rewrite length_combine; lia).
    apply map_snd_combine. lia. }
  assert (Hz1 : map (fun x => fst (fst (fst x))) z = ds).
  { rewrite <- (map_map fst (fun x => fst (fst x))). unfold z. rewrite map_fst_combine
      by (rewrite !length_combine; lia).
    rewrite <- (map_map fst fst). rewrite map_fst_combine by (rewrite length_combine; lia).
    apply map_fst_combine. lia. }
  assert (Hm : map (fun d => in_range (year d)) ds = map retained z).
  { rewrite <- Hz1, map_map. apply map_ext. now intros [[[d c] dt] r]. }
  rewrite Hm. unfold loc. simpl.
  rewrite firstn_all2 by (rewrite length_map; unfold z; rewrite !length_combine; lia).
  rewrite count_filter.
  rewrite <- Hz1 at 1. rewrite <- Hz2, <- Hz3, <- Hz4, <- Hz1.
  rewrite !map_map, !select_map, !select_filter.
  refine (eq_trans (rows_of_maps (filter retained z)
             [("date", fun x => CDate (fst (fst (fst x))));
              ("confirmed", fun x => CJ (snd (fst (fst x))));
              ("deaths", fun x => CJ (snd (fst x)));
              ("recovered", fun x => snd x);
              ("year", fun x => CJ (JInt (year (fst (fst (fst x))))))]) _).
  apply map_ext. now intros [[[d c] dt] r].
Qed.

Lemma frame_of_series tm cases deaths :
  assoc "cases" tm = Some (JObj cases) ->
  assoc "deaths" tm = Some (JObj deaths) ->
  length deaths = length cases ->
  recovered_fits tm (length cases) ->
  let frame := mkframe (length (map fst cases))
                 [("date", str_cells (map fst cases));
                  ("confirmed", map CJ (map snd cases));
                  ("deaths", map CJ (map snd deaths));
                  ("recovered", recovered_column tm (length cases))] in
  global_frame (JObj tm) = Ok frame
  /\ forall m, assoc "timeline" m = Some (JObj tm) -> country_frame (JObj m) = Ok frame.
Proof.
  intros Hc Hd Hl Hr frame. subst frame.
  unfold recovered_fits in Hr. unfold recovered_column.
  assert (Hbuild : forall rec,
    rec = ColScalar NA \/ (exists r : list (string * json),
                               rec = ColList (map CJ (map snd r))
                                     /\ length r = length cases) ->
    frame_of_dict [("date", ColList (str_cells (map fst cases)));
                   ("confirmed", ColList (map CJ (map snd cases)));
                   ("deaths", ColList (map CJ (map snd deaths)));
                   ("recovered", rec)]
    = Ok (mkframe (length (map fst cases))
            [("date", str_cells (map fst cases));
             ("confirmed", map CJ (map snd cases));
             ("deaths", map CJ (map snd deaths));
             ("recovered", broadcast (length cases) rec)])).
  { intros rec [->|(r & -> & Hlr)];
      unfold frame_of_dict, common_length, list_lengths, str_cells; simpl;
      rewrite !length_map, ?Hl, ?Hlr, !Nat.eqb_refl; reflexivity. }
  split; [|intros m Hm]; unfold global_frame, country_frame; simpl;
    rewrite ?Hm; simpl; rewrite Hc, Hd; simpl;
    destruct (assoc "recovered" tm) as [[| | | |?|r]|]; simpl; try contradiction;
    rewrite Hbuild by (eauto); reflexivity.
Qed.

(** A history payload with its series of equal length and dates that
    parse gives a table whose rows are the positions of the series read
    side by side. *)
Lemma covid_table_rows country s js tm cases deaths ds :
  series_of country js = Some tm -> passes s ->
  assoc "cases" tm = Some (JObj cases) ->
  assoc "deaths" tm = Some (JObj deaths) ->
  length deaths = length cases ->
  recovered_fits tm (length cases) ->
  Forall2 (fun k d => to_datetime k = Some d) (map fst cases) ds ->
  exists df,
    covid_table to_datetime country (Response s (Some js)) = Ok df
    /\ column_names df = ["date"; "confirmed"; "deaths"; "recovered"; "year"]
    /\ getitem df "recovered"
       = Ok (select (map (fun d => in_range (year d)) ds)
                    (recovered_column tm (length cases)))
    /\ rows_of df
       = map history_row
           (filter retained
              (combine (combine (combine ds (map snd cases)) (map snd deaths))
                       (recovered_column tm (length cases)))).
Proof.
  intros Hs Hp Hc Hd Hl Hr Hds.
  pose proof (Forall2_length Hds) as Hn. rewrite length_map in Hn.
  destruct (frame_of_series tm cases deaths Hc Hd Hl Hr) as [Hg Hcn].
  assert (Hrl : length (recovered_column tm (length cases)) = length ds).
  { unfold recovered_column. unfold recovered_fits in Hr.
    destruct (assoc "recovered" tm) as [[| | | |?|r]|]; try contradiction;
      rewrite ?repeat_length, ?length_map; lia. }
  destruct (restrict_years_history (map fst cases) ds (map snd cases) (map snd deaths)
              (recovered_column tm (length cases)) Hds) as (df & Hdf & Hrest);
    rewrite ?length_map; try lia.
  exists df. split; [|exact Hrest].
  unfold covid_table. cbn [answer rbind].
  assert (Hst : raise_for_status (Response s (Some js)) = Ok tt).
  { unfold raise_for_status. destruct Hp as [Hp|Hp].
    - replace (s <? 600) with true by (symmetry; apply Z.ltb_lt; lia).
      replace (400 <=? s) with false by (symmetry; apply Z.leb_gt; lia). reflexivity.
    - replace (s <? 600) with false by (symmetry; apply Z.ltb_ge; lia).
      now rewrite andb_false_r. }
  rewrite Hst. cbn [rbind resp_json].
  unfold series_of in Hs. destruct js as [| | | | |m]; try discriminate.
  destruct (is_global country).
  - inversion Hs; subst m. rewrite Hg. simpl. exact Hdf.
  - destruct (assoc "timeline" m) as [[| | | |?|tm']|] eqn:Ht; try discriminate.
    inversion Hs; subst tm'. rewrite (Hcn m Ht). simpl. exact Hdf.
Qed.

(** C2: every history table and every vaccination table returned by the
    table builder has, in each of its rows, a parsed date, a year field
    equal to the year of that date, and that year within 2020-2023; rows
    of other years are not in the table. *)
Theorem every_row_within_2020_2023 country c w df w' :
  load_covid_data to_datetime country w = (Ok df, w')
  \/ load_vaccine_data to_datetime c w = (Ok df, w') ->
  forall i, (i < height df)%nat -> row_in_range (row df i).
Proof.
  intros [H|H] i Hi.
  - change (fetch to_datetime (Call_covid country) w = (Ok df, w')) in H.
    rewrite fetch_once in H. inversion H as [[Ht Hw]]. clear H Hw.
    simpl in Ht. unfold covid_table in Ht.
    destruct (answer _) as [resp|]; [|discriminate]. simpl in Ht.
    destruct (raise_for_status resp); [|discriminate]. simpl in Ht.
    destruct (resp_json resp) as [js|]; [|discriminate]. simpl in Ht.
    destruct (if is_global country then global_frame js else country_frame js)
      as [full|]; [|discriminate]. simpl in Ht.
    eapply restrict_years_rows; eauto.
  - change (fetch to_datetime (Call_vaccine c) w = (Ok df, w')) in H.
    rewrite fetch_once in H. inversion H as [[Ht Hw]]. clear H Hw.
    simpl in Ht. unfold vaccine_table in Ht.
    destruct (answer _) as [resp|]; [|discriminate]. simpl in Ht.
    destruct (raise_for_status resp); [|discriminate]. simpl in Ht.
    destruct (resp_json resp) as [js|]; [|discriminate]. simpl in Ht.
    destruct (py_get js "timeline" (JArr [])) as [data|]; [|discriminate]. simpl in Ht.
    destruct (negb (truthy data)).
    + inversion Ht; subst df. simpl in Hi. lia.
    + simpl in Ht. destruct (pd_DataFrame data) as [full|]; [|discriminate]. simpl in Ht.
      eapply restrict_years_rows; eauto.
Qed.

End Tables.

(** ** The global history *)

(** C3: the global history table has one row per date of the cases
    series, made of the date, the cases value, the deaths value and the
    recovered value found at the same position of their series (the
    keys of the deaths and recovered series are never consulted), rows
    of a year outside 2020-2023 left out.  In particular, when the date
    reader reads "1/22/20" as 22 January 2020 and reads the other keys,
    cases {"1/22/20": 1, ...} and deaths {"1/22/20": 0, ...} give a first
    row with that date, confirmed 1, deaths 0 and year 2020. *)
Theorem global_history_pairs_by_position :
  (forall to_datetime w s m cases deaths ds,
      net w url_global = Response s (Some (JObj m)) -> passes s ->
      assoc "cases" m = Some (JObj cases) ->
      assoc "deaths" m = Some (JObj deaths) ->
      length deaths = length cases ->
      recovered_fits m (length cases) ->
      Forall2 (fun k d => to_datetime k = Some d) (map fst cases) ds ->
      exists df,
        load_covid_data to_datetime None w = (Ok df, sending url_global w)
        /\ rows_of df
           = map history_row
               (filter retained
                  (combine (combine (combine ds (map snd cases)) (map snd deaths))
                           (recovered_column m (length cases)))))
  /\ (forall to_datetime w s cs dts ds,
         net w url_global
         = Response s (Some (JObj [("cases", JObj (("1/22/20", JInt 1) :: cs));
                                   ("deaths", JObj (("1/22/20", JInt 0) :: dts))])) ->
         passes s ->
         length dts = length cs ->
         to_datetime "1/22/20" = Some (mkdate 2020 1 22) ->
         Forall2 (fun k d => to_datetime k = Some d) (map fst cs) ds ->
         exists df others,
           load_covid_data to_datetime None w = (Ok df, sending url_global w)
           /\ rows_of df
              = [("date", CDate (mkdate 2020 1 22)); ("confirmed", CJ (JInt 1));
                 ("deaths", CJ (JInt 0)); ("recovered", NA);
                 ("year", CJ (JInt 2020))] :: others).
Proof.
  split.
  - intros to_datetime w s m cases deaths ds Hnet Hp Hc Hd Hl Hr Hds.
    destruct (covid_table_rows to_datetime None s (JObj m) m cases deaths ds)
      as (df & Hdf & _ & _ & Hrows); auto.
    exists df. split; [|exact Hrows].
    change (fetch to_datetime (Call_covid None) w = (Ok df, sending url_global w)).
    rewrite fetch_once. simpl url_of. rewrite Hnet. simpl table_of. now rewrite Hdf.
  - intros to_datetime w s cs dts ds Hnet Hp Hl Hfirst Hds.
    destruct (covid_table_rows to_datetime None s
                (JObj [("cases", JObj (("1/22/20", JInt 1) :: cs));
                       ("deaths", JObj (("1/22/20", JInt 0) :: dts))])
                [("cases", JObj (("1/22/20", JInt 1) :: cs));
                 ("deaths", JObj (("1/22/20", JInt 0) :: dts))]
                (("1/22/20", JInt 1) :: cs) (("1/22/20", JInt 0) :: dts)
                (mkdate 2020 1 22 :: ds))
      as (df & Hdf & _ & _ & Hrows); auto.
    + simpl. now rewrite Hl.
    + exact I.
    + simpl. constructor; auto.
    + exists df. eexists. split.
      * change (fetch to_datetime (Call_covid None) w = (Ok df, sending url_global w)).
        rewrite fetch_once. simpl url_of. rewrite Hnet. simpl table_of. now rewrite Hdf.
      * rewrite Hrows. reflexivity.
Qed.

(** ** A history without a recovered series *)

Lemma select_Forall {A} (P : A -> Prop) mask l :
  Forall P l -> Forall P (select mask l).
Proof.
  intros H. revert mask. induction H as [|a l Ha _ IH]; intros [|b mask]; simpl;
    try constructor.
  destruct b; auto.
Qed.

Lemma all_missing_notna col :
  Forall (fun c => c = NA) col -> existsb notna col = false.
Proof. induction 1 as [|c col -> _ IH]; simpl; auto. Qed.

Lemma assoc_In_names {A} name (cols : list (string * A)) :
  In name (map fst cols) -> exists c, assoc name cols = Some c.
Proof.
  induction cols as [|[n c] cols IH]; simpl; [tauto|].
  intros [->|H].
  - rewrite String.eqb_refl. eauto.
  - destruct (String.eqb name n); eauto.
Qed.

(** C4, as the script has it: when the "recovered" member is absent from
    a history response, the table is built without error and has a
    recovered column holding the missing value in every row; whatever
    year is selected, the recovered total is then unavailable, the third
    metric card reads "N/A" and the trend chart plots confirmed and
    deaths only. *)
Theorem missing_recovered_is_a_null_column
    to_datetime country w s js tm cases deaths ds :
  net w (url_of (Call_covid country)) = Response s (Some js) -> passes s ->
  series_of country js = Some tm ->
  assoc "recovered" tm = None ->
  assoc "cases" tm = Some (JObj cases) ->
  assoc "deaths" tm = Some (JObj deaths) ->
  length deaths = length cases ->
  Forall2 (fun k d => to_datetime k = Some d) (map fst cases) ds ->
  exists df col,
    load_covid_data to_datetime country w
    = (Ok df, sending (url_of (Call_covid country)) w)
    /\ In "recovered" (column_names df)
    /\ getitem df "recovered" = Ok col
    /\ Forall (fun c => c = NA) col
    /\ forall selected_year, exists flt,
         filtered df selected_year = Ok flt
         /\ total_recovered flt = Ok None
         /\ (forall c d, nth_error (metric_cards c d None) 2
                         = Some (WMetric "Total Recovered" "N/A"))
         /\ (forall country_input,
                exists title,
                  trend_chart flt country_input selected_year None
                  = WPlotly (Line flt "date" ["confirmed"; "deaths"] title)).
Proof.
  intros Hnet Hp Hs Hrec Hc Hd Hl Hds.
  destruct (covid_table_rows to_datetime country s js tm cases deaths ds)
    as (df & Hdf & Hnames & Hcol & _); auto.
  { unfold recovered_fits. now rewrite Hrec. }
  unfold recovered_column in Hcol. rewrite Hrec in Hcol.
  assert (Hna : forall mask mask',
             Forall (fun c => c = NA)
               (select mask' (select mask (repeat NA (length cases))))).
  { intros. apply select_Forall, select_Forall.
    apply Forall_forall. intros c Hin. now apply repeat_spec in Hin. }
  eexists df, _. split; [|split; [|split; [exact Hcol|split]]].
  - change (fetch to_datetime (Call_covid country) w
            = (Ok df, sending (url_of (Call_covid country)) w)).
    rewrite fetch_once, Hnet. simpl table_of. now rewrite Hdf.
  - rewrite Hnames. simpl. tauto.
  - apply select_Forall. apply Forall_forall. intros c Hin. now apply repeat_spec in Hin.
  - intros selected_year.
    destruct (assoc_In_names "year" (columns df)) as [ys Hys].
    { fold (column_names df). rewrite Hnames. simpl. tauto. }
    unfold filtered, getitem. rewrite Hys. simpl.
    eexists. split; [reflexivity|]. split; [|split].
    + unfold total_recovered, getitem. rewrite assoc_loc.
      unfold getitem in Hcol.
      destruct (assoc "recovered" (columns df)) as [col|]; [|discriminate].
      inversion Hcol; subst col. simpl.
      now rewrite (all_missing_notna _ (Hna _ _)).
    + reflexivity.
    + intros country_input. eexists. reflexivity.
Qed.

(** The claim as stated (no recovered column) fails on the sample
    history, whose payload has no "recovered" member. *)
Lemma recovered_column_is_present :
  ~ (forall df w',
        load_covid_data parse_mdy None global_world = (Ok df, w') ->
        ~ In "recovered" (column_names df)).
Proof.
  intros H.
  apply (H global_history (sending url_global global_world)).
  - vm_compute. reflexivity.
  - simpl. tauto.
Qed.

(** ** Vaccination data *)

Lemma raise_for_status_passes s b :
  passes s -> raise_for_status (Response s b) = Ok tt.
Proof.
  unfold raise_for_status. intros [Hp|Hp].
  - replace (400 <=? s) with false by (symmetry; apply Z.leb_gt; lia). reflexivity.
  - replace (s <? 600) with false by (symmetry; apply Z.ltb_ge; lia).
    now rewrite andb_false_r.
Qed.

(** C5: when the response for a country has no timeline entries (the
    member is absent or an empty list), the vaccination fetch returns,
    without raising, an empty table whose columns are exactly date and
    total; the vaccine section of the page then shows one warning and
    nothing else: no metric, no chart. *)
Theorem no_timeline_gives_empty_vaccine_table to_datetime c w s m :
  net w (url_vaccine c) = Response s (Some (JObj m)) -> passes s ->
  assoc "timeline" m = None \/ assoc "timeline" m = Some (JArr []) ->
  exists df,
    load_vaccine_data to_datetime c w = (Ok df, sending (url_vaccine c) w)
    /\ height df = 0%nat
    /\ column_names df = ["date"; "total"]
    /\ (c <> "" -> fresh w (Call_vaccine c) = None ->
        exists w',
          vaccine_section to_datetime (Some c) w = (Ok tt, w')
          /\ shown w'
             = (shown w
                ++ [WWarning ("No vaccination data available for " ++ c ++ ".")])%list).
Proof.
  intros Hnet Hp Ht.
  assert (Hload : load_vaccine_data to_datetime c w
                  = (Ok (empty_frame ["date"; "total"]), sending (url_vaccine c) w)).
  { change (fetch to_datetime (Call_vaccine c) w
            = (Ok (empty_frame ["date"; "total"]), sending (url_vaccine c) w)).
    rewrite fetch_once. simpl url_of. rewrite Hnet. simpl table_of.
    unfold vaccine_table. cbn [answer rbind].
    rewrite (raise_for_status_passes _ _ Hp). cbn [rbind resp_json py_get].
    destruct Ht as [-> | ->]; reflexivity. }
  exists (empty_frame ["date"; "total"]).
  split; [exact Hload|]. split; [reflexivity|]. split; [reflexivity|].
  intros Hc Hfresh.
  unfold vaccine_section.
  destruct (String.eqb c "") eqn:E; [apply String.eqb_eq in E; contradiction|].
  unfold bind, load_vaccine_data_cached, cache_data. rewrite Hfresh, Hload.
  simpl. eexists. split; reflexivity.
Qed.

(** ** Metric cards *)

Lemma maximum_spec l : forall z,
  (maximum z l = z \/ In (maximum z l) l)
  /\ z <= maximum z l
  /\ Forall (fun x => x <= maximum z l) l.
Proof.
  induction l as [|x l IH]; intros z; simpl.
  - split; [auto|]. split; [lia|constructor].
  - destruct (IH (Z.max z x)) as (Hin & Hle & Hall).
    split; [|split; [lia|constructor; [lia|exact Hall]]].
    destruct Hin as [Heq|Hin]; [|auto].
    rewrite Heq. destruct (Z.max_spec z x) as [[_ ->]|[_ ->]]; auto.
Qed.




Lemma getitem_loc df mask name :
  getitem (loc df mask) name
  = match getitem df name with
    | Ok col => Ok (select mask col)
    | Raise e => Raise e
    end.
Proof. unfold getitem. rewrite assoc_loc. now destruct (assoc name (columns df)). Qed.







(** ** The country snapshot *)

Lemma existsb_eqb_In k l : existsb (String.eqb k) l = true <-> In k l.
Proof.
  rewrite existsb_exists. split.
  - intros (x & Hx & E). apply String.eqb_eq in E. now subst.
  - intros H. exists k. split; [exact H|apply String.eqb_refl].
Qed.

Lemma add_labels_In k ks : forall seen,
  In k (add_labels seen ks) <-> In k seen \/ In k ks.
Proof.
  induction ks as [|x ks IH]; intros seen; simpl; [tauto|].
  destruct (existsb (String.eqb x) seen) eqn:E; rewrite IH.
  - apply existsb_eqb_In in E. split; [tauto|].
    intros [H|[->|H]]; auto.
  - rewrite in_app_iff. simpl. tauto.
Qed.

Lemma record_labels_In k recs : forall seen,
  In k (record_labels seen recs)
  <-> In k seen \/ exists r, In r recs /\ In k (map fst r).
Proof.
  induction recs as [|r recs IH]; intros seen; simpl.
  - split; [tauto|]. intros [H|(r & [] & _)]. exact H.
  - rewrite IH, add_labels_In. split.
    + intros [[H|H]|(r' & Hr & Hk)]; eauto.
    + intros [H|(r' & [<-|Hr] & Hk)]; eauto.
Qed.

Lemma assoc_Some_In {A} k (m : list (string * A)) v :
  assoc k m = Some v -> In k (map fst m).
Proof.
  induction m as [|[n x] m IH]; simpl; [discriminate|].
  destruct (String.eqb k n) eqn:E.
  - apply String.eqb_eq in E. auto.
  - auto.
Qed.

Lemma assoc_tabulate {A} (f : string -> A) k labels :
  In k labels -> assoc k (map (fun n => (n, f n)) labels) = Some (f k).
Proof.
  induction labels as [|n labels IH]; simpl; [tauto|].
  intros H. destruct (String.eqb k n) eqn:E.
  - apply String.eqb_eq in E. now subst.
  - destruct H as [->|H]; [now rewrite String.eqb_refl in E|auto].
Qed.

Lemma nth_map_error {A} (f : A -> cell) l i a :
  nth_error l i = Some a -> nth i (map f l) NA = f a.
Proof.
  revert i. induction l as [|x l IH]; intros [|i]; simpl; try discriminate.
  - now intros [= ->].
  - apply IH.
Qed.

(** The coordinate the script reads for a record: the member of its
    [countryInfo] object, or a missing value. *)
Lemma traverse_info_get k recs :
  Forall (fun r => exists g, assoc "countryInfo" r = Some (JObj g)) recs ->
  traverse (info_get k) (map (field "countryInfo") recs)
  = Ok (map (fun r => match assoc "countryInfo" r with
                      | Some (JObj g) => field k g
                      | _ => NA
                      end) recs).
Proof.
  induction 1 as [|r recs (g & Hg) _ IH]; simpl; auto.
  unfold field at 1. rewrite Hg. simpl. now rewrite IH.
Qed.

(** C7: from a list of country objects, each with a nested "countryInfo"
    object, the snapshot table is built without raising; it has exactly
    the six columns country, cases, deaths, recovered, lat, long; lat and
    long of a row are the "lat" and "long" members of that country's
    nested object, and a nested object without "lat" gives a missing lat
    in that row. *)
Theorem snapshot_keeps_six_fields w s items recs :
  net w url_countries = Response s (Some (JArr items)) ->
  traverse as_record items = Ok recs ->
  recs <> [] ->
  Forall (fun r => exists g, assoc "countryInfo" r = Some (JObj g)) recs ->
  (forall k, In k ["country"; "cases"; "deaths"; "recovered"] ->
             exists r, In r recs /\ In k (map fst r)) ->
  exists df,
    load_country_data w = (Ok df, sending url_countries w)
    /\ column_names df = ["country"; "cases"; "deaths"; "recovered"; "lat"; "long"]
    /\ height df = length recs
    /\ forall i r g,
         nth_error recs i = Some r ->
         assoc "countryInfo" r = Some (JObj g) ->
         assoc "lat" (row df i) = Some (field "lat" g)
         /\ assoc "long" (row df i) = Some (field "long" g)
         /\ (assoc "lat" g = None -> assoc "lat" (row df i) = Some NA)
         /\ forall k, In k ["country"; "cases"; "deaths"; "recovered"] ->
                      assoc k (row df i) = Some (field k r).
Proof.
  intros Hnet Hrecs Hne Hinfo Hkeys.
  set (labels := record_labels [] recs).
  assert (Hlab : forall k, (exists r, In r recs /\ In k (map fst r)) -> In k labels).
  { intros k H. apply record_labels_In. now right. }
  assert (Hci : In "countryInfo" labels).
  { apply Hlab. destruct recs as [|r recs']; [congruence|].
    inversion Hinfo as [|? ? (g & Hg) _]; subst.
    exists r. split; [now left|]. eapply assoc_Some_In; eauto. }
  set (col := fun k => map (field k) recs).
  set (coord := fun k => map (fun r => match assoc "countryInfo" r with
                                       | Some (JObj g) => field k g
                                       | _ => NA
                                       end) recs).
  assert (Hfetch : country_table (Response s (Some (JArr items)))
                   = Ok (mkframe (length recs)
                           [("country", col "country"); ("cases", col "cases");
                            ("deaths", col "deaths"); ("recovered", col "recovered");
                            ("lat", coord "lat"); ("long", coord "long")])).
  { unfold country_table. cbn [answer rbind resp_json pd_DataFrame].
    rewrite Hrecs. cbn [rbind]. fold labels.
    unfold getitem at 1. cbn [columns].
    rewrite (assoc_tabulate (fun k => map (field k) recs)) by exact Hci. cbn [rbind].
    rewrite (traverse_info_get "lat") by exact Hinfo. cbn [rbind].
    unfold setitem at 1. cbn [height columns]. rewrite length_map, Nat.eqb_refl. cbn [rbind].
    unfold getitem at 1. cbn [columns].
    rewrite assoc_set_column_other by reflexivity.
    rewrite (assoc_tabulate (fun k => map (field k) recs)) by exact Hci. cbn [rbind].
    rewrite (traverse_info_get "long") by exact Hinfo. cbn [rbind].
    unfold setitem. cbn [height columns]. rewrite length_map, Nat.eqb_refl. cbn [rbind].
    unfold project, getitem. cbn [traverse columns height].
    rewrite assoc_set_column_same.
    rewrite (assoc_set_column_other "long" "lat") by reflexivity.
    rewrite assoc_set_column_same.
    repeat (rewrite (assoc_set_column_other "long") by reflexivity;
            rewrite (assoc_set_column_other "lat") by reflexivity;
            rewrite (assoc_tabulate (fun k => map (field k) recs))
              by (apply Hlab, Hkeys; simpl; tauto)).
    reflexivity. }
  exists (mkframe (length recs)
            [("country", col "country"); ("cases", col "cases");
             ("deaths", col "deaths"); ("recovered", col "recovered");
             ("lat", coord "lat"); ("long", coord "long")]).
  split; [|split; [reflexivity|split; [reflexivity|]]].
  - change (load_country_data w) with (fetch (fun _ => None) Call_country w).
    rewrite fetch_once. simpl url_of. rewrite Hnet. simpl table_of. rewrite Hfetch.
    reflexivity.
  - intros i r g Hi Hg.
    rewrite !assoc_row. cbn [columns assoc String.eqb Ascii.eqb Bool.eqb option_map].
    unfold coord.
    rewrite !(nth_map_error _ _ _ _ Hi), Hg.
    split; [reflexivity|]. split; [reflexivity|]. split.
    + intros Hl. unfold field. now rewrite Hl.
    + intros k Hk. rewrite assoc_row.
      simpl in Hk. destruct Hk as [<-|[<-|[<-|[<-|[]]]]];
        cbn [columns assoc String.eqb Ascii.eqb Bool.eqb option_map]; unfold col;
        now rewrite (nth_map_error _ _ _ _ Hi).
Qed.

(** ** Failures of the upstream GET *)

(** The history and the vaccination functions issue one GET and raise
    when it meets a transport failure or a client or server error
    status; nothing is retried and no table is returned. *)
Lemma checked_fetch_aborts to_datetime k w :
  k <> Call_country ->
  match net w (url_of k) with
  | Unreachable =>
      fetch to_datetime k w = (Raise ConnectionError, sending (url_of k) w)
  | Response s _ =>
      400 <= s < 600 ->
      fetch to_datetime k w = (Raise (HTTPError s), sending (url_of k) w)
  end.
Proof.
  intros Hk. rewrite fetch_once.
  destruct (net w (url_of k)) as [|s b] eqn:Hnet.
  - destruct k; try congruence; reflexivity.
  - intros Hs.
    assert (Hst : raise_for_status (Response s b) = Raise (HTTPError s)).
    { unfold raise_for_status.
      replace (400 <=? s) with true by (symmetry; apply Z.leb_le; lia).
      replace (s <? 600) with true by (symmetry; apply Z.ltb_lt; lia). reflexivity. }
    destruct k; try congruence; simpl table_of;
      unfold covid_table, vaccine_table; cbn [answer rbind]; now rewrite Hst.
Qed.

(** The snapshot function raises on a transport failure, but never
    looks at the status. *)
Lemma snapshot_fetch_unchecked to_datetime w :
  match net w url_countries with
  | Unreachable =>
      fetch to_datetime Call_country w = (Raise ConnectionError, sending url_countries w)
  | Response s b =>
      forall s', country_table (Response s b) = country_table (Response s' b)
  end.
Proof.
  destruct (net w url_countries) eqn:Hnet.
  - rewrite fetch_once. simpl. now rewrite Hnet.
  - reflexivity.
Qed.

(** C1, at the failing input: the countries endpoint answers with status
    500, which [raise_for_status] rejects, and a JSON list; the snapshot
    function does not abort but returns the table built from that
    payload. *)
Theorem snapshot_fetch_ignores_error_status :
  raise_for_status (net server_error_world url_countries) = Raise (HTTPError 500)
  /\ load_country_data server_error_world
     = (Ok snapshot_table, sending url_countries server_error_world).
Proof. split; vm_compute; reflexivity. Qed.

(** ** Memoisation *)



Lemma fetch_cached_eq to_datetime k :
  fetch_cached to_datetime k = cache_data k (fetch to_datetime k).
Proof. destruct k; reflexivity. Qed.

(** A call that finds no fresh entry runs the function: one GET, and
    the table built from its reply is stored with the time of the call. *)
Lemma cache_miss to_datetime k w :
  fresh w k = None ->
  fetch_cached to_datetime k w
  = match table_of to_datetime k (net w (url_of k)) with
    | Ok df => (Ok df, storing (memo_store k (clock w, df) (memo w))
                               (sending (url_of k) w))
    | Raise e => (Raise e, sending (url_of k) w)
    end.
Proof.
  intros Hf. rewrite fetch_cached_eq. unfold cache_data.
  rewrite Hf, fetch_once. now destruct (table_of _ _ _).
Qed.



(** ** The country control *)

Lemma vaccine_panel_sent c df w : sent (snd (vaccine_panel c df w)) = sent w.
Proof.
  unfold vaccine_panel. destruct (negb (empty df)); [|reflexivity].
  unfold bind, lift, show.
  destruct (rbind (getitem df "total") (fun t => max_int t)); reflexivity.
Qed.

Lemma vaccine_section_sent to_datetime c w :
  c <> "" -> fresh w (Call_vaccine c) = None ->
  sent (snd (vaccine_section to_datetime (Some c) w)) = (sent w ++ [url_vaccine c])%list.
Proof.
  intros Hc Hf. unfold vaccine_section.
  destruct (String.eqb c "") eqn:E; [apply String.eqb_eq in E; contradiction|].
  unfold bind.
  change (load_vaccine_data_cached to_datetime c)
    with (fetch_cached to_datetime (Call_vaccine c)).
  rewrite (cache_miss _ _ _ Hf).
  destruct (table_of _ _ _); [|reflexivity].
  now rewrite vaccine_panel_sent.
Qed.

(** The nine options of the control and what each one makes of the
    functions the page calls with it. *)
Lemma selection_paths to_datetime c w :
  In c country_options ->
  (exists eight, country_options = "Global" :: eight
                 /\ length eight = 8%nat /\ ~ In "Global" eight)
  /\ (exists picked,
         selectbox "Select Country" country_options w = (Ok (Some picked), w)
         /\ In picked country_options)
  /\ (c = "Global" ->
      use_country (Some c) = None
      /\ sent (snd (load_covid_data to_datetime (use_country (Some c)) w))
         = (sent w ++ [url_global])%list
      /\ vaccine_section to_datetime (use_country (Some c)) w
         = (Ok tt, showing (WInfo "Select a specific country to view vaccination data.") w))
  /\ (c <> "Global" ->
      use_country (Some c) = Some c
      /\ sent (snd (load_covid_data to_datetime (use_country (Some c)) w))
         = (sent w ++ [url_history c])%list
      /\ vaccine_section to_datetime (use_country (Some c)) w
         = bind (load_vaccine_data_cached to_datetime c) (vaccine_panel c) w
      /\ (fresh w (Call_vaccine c) = None ->
          sent (snd (vaccine_section to_datetime (use_country (Some c)) w))
          = (sent w ++ [url_vaccine c])%list)).
Proof.
  intros Hin.
  split.
  { eexists. split; [reflexivity|]. split; [reflexivity|].
    simpl. intros H. repeat (destruct H as [H|H]; [discriminate H|]). exact H. }
  split.
  { unfold selectbox.
    destruct (nth_error country_options (picks w "Select Country")) as [x|] eqn:E.
    - exists x. split; [reflexivity|]. eapply nth_error_In; eauto.
    - exists "Global". split; [reflexivity|]. now left. }
  assert (Hsent : forall country,
             sent (snd (load_covid_data to_datetime country w))
             = (sent w ++ [url_of (Call_covid country)])%list).
  { intros country.
    change (load_covid_data to_datetime country w)
      with (fetch to_datetime (Call_covid country) w).
    now rewrite fetch_once. }
  split.
  - intros ->. split; [reflexivity|]. split; [now rewrite Hsent|reflexivity].
  - intros Hc. simpl in Hin.
    destruct Hin as [Hg|Hin]; [now symmetry in Hg|].
    repeat (destruct Hin as [<-|Hin]); try contradiction;
      (split; [reflexivity|]);
      (split; [now rewrite Hsent|]);
      (split; [reflexivity|]);
      intros Hf;
      (apply (vaccine_section_sent to_datetime _ w); [discriminate|exact Hf]).
Qed.

(** ** The year control *)

Lemma insert_In y z l : In y (insert z l) <-> y = z \/ In y l.
Proof.
  induction l as [|x l IH]; simpl; [intuition|].
  destruct (z <=? x); simpl; [intuition|]. rewrite IH. intuition.
Qed.

Lemma sorted_In y l : In y (sorted l) <-> In y l.
Proof.
  induction l as [|x l IH]; simpl; [tauto|].
  rewrite insert_In, IH. intuition.
Qed.

Lemma insert_ascending z l :
  ~ In z l -> StronglySorted Z.lt l -> StronglySorted Z.lt (insert z l).
Proof.
  intros Hz Hs. induction Hs as [|x l Hs IH Hx]; simpl.
  - repeat constructor.
  - assert (z <> x) by (intros ->; apply Hz; now left).
    rewrite Forall_forall in Hx.
    destruct (z <=? x) eqn:E.
    + apply Z.leb_le in E. constructor; [now constructor; [|apply Forall_forall]|].
      constructor; [lia|]. apply Forall_forall. intros y Hy. specialize (Hx y Hy). lia.
    + apply Z.leb_gt in E. constructor.
      * apply IH. intros Hin. apply Hz. now right.
      * apply Forall_forall. intros y Hy. apply insert_In in Hy.
        destruct Hy as [->|Hy]; [lia|auto].
Qed.

Lemma sorted_ascending l : NoDup l -> StronglySorted Z.lt (sorted l).
Proof.
  induction 1 as [|x l Hx _ IH]; simpl; [constructor|].
  apply insert_ascending; [now rewrite sorted_In|exact IH].
Qed.

Lemma existsb_Zeqb_In z l : existsb (Z.eqb z) l = true <-> In z l.
Proof.
  rewrite existsb_exists. split.
  - intros (x & Hx & E). apply Z.eqb_eq in E. now subst.
  - intros H. exists z. split; [exact H|apply Z.eqb_refl].
Qed.

Lemma unique_from_spec l : forall seen,
  NoDup (unique_from seen l)
  /\ forall y, In y (unique_from seen l) <-> In y l /\ ~ In y seen.
Proof.
  induction l as [|x l IH]; intros seen; simpl.
  - split; [constructor|]. tauto.
  - destruct (existsb (Z.eqb x) seen) eqn:E.
    + apply existsb_Zeqb_In in E. destruct (IH seen) as [Hn Hi].
      split; [exact Hn|]. intros y. rewrite Hi. split; [tauto|].
      intros [[->|Hy] Hs]; tauto.
    + assert (Hx : ~ In x seen).
      { intros H. apply existsb_Zeqb_In in H. congruence. }
      destruct (IH (x :: seen)) as [Hn Hi]. split.
      * constructor; [|exact Hn]. rewrite Hi. simpl. tauto.
      * intros y. simpl. rewrite Hi. simpl.
        destruct (Z.eq_dec x y) as [->|Hne]; [tauto|]. tauto.
Qed.

Lemma available_spec zs :
  StronglySorted Z.lt (sorted (unique zs))
  /\ forall y, In y (sorted (unique zs)) <-> In y zs.
Proof.
  destruct (unique_from_spec zs []) as [Hn Hi]. split.
  - now apply sorted_ascending.
  - intros y. rewrite sorted_In. unfold unique. rewrite Hi. simpl. tauto.
Qed.

Ltac step H :=
  match type of H with
  | rbind ?e _ = Ok _ =>
      let x := fresh "x" in
      destruct e as [x|] eqn:?; [cbn [rbind] in H|discriminate H]
  end.

Lemma frame_of_dict_shape d f :
  frame_of_dict d = Ok f -> column_names f = map fst d /\ well_formed f.
Proof.
  unfold frame_of_dict, common_length.
  destruct (list_lengths d) as [|n ns] eqn:Hl; [discriminate|].
  destruct (forallb (Nat.eqb n) ns) eqn:Hall; [|discriminate].
  intros [= <-]. split.
  - unfold column_names. simpl. rewrite map_map. reflexivity.
  - unfold well_formed. simpl. apply Forall_forall. intros [name col] Hin.
    apply in_map_iff in Hin. destruct Hin as ([name' a] & [= -> <-] & Hin). simpl.
    destruct a as [l|c]; simpl; [|apply repeat_length].
    assert (Hmem : In (length l) (list_lengths d)).
    { unfold list_lengths. apply in_flat_map. exists (name, ColList l). simpl. auto. }
    rewrite Hl in Hmem. destruct Hmem as [<-|Hmem]; [reflexivity|].
    rewrite forallb_forall in Hall. symmetry. apply Nat.eqb_eq. auto.
Qed.

Lemma history_frame_shape js f :
  global_frame js = Ok f \/ country_frame js = Ok f ->
  column_names f = ["date"; "confirmed"; "deaths"; "recovered"] /\ well_formed f.
Proof.
  unfold global_frame, country_frame. intros [H|H]; repeat step H;
    apply frame_of_dict_shape in H; exact H.
Qed.

Section Shape.

Variable to_datetime : string -> option date.

Lemma restrict_years_shape full df :
  restrict_years to_datetime full = Ok df ->
  column_names full = ["date"; "confirmed"; "deaths"; "recovered"] ->
  well_formed full ->
  column_names df = ["date"; "confirmed"; "deaths"; "recovered"; "year"]
  /\ well_formed df
  /\ exists ycol, getitem df "year" = Ok ycol /\ integers ycol.
Proof.
  intros H Hnames Hwf.
  destruct (restrict_years_inv _ _ _ H) as (dates & parsed & years & _ & _ & Hl & Hy & ->).
  pose proof (traverse_length _ _ _ Hy) as Hly.
  destruct full as [h cols]. unfold column_names, well_formed in *. simpl in *.
  destruct cols as [|[n1 c1] [|[n2 c2] [|[n3 c3] [|[n4 c4] [|]]]]]; try discriminate.
  simpl in Hnames. injection Hnames as -> -> -> ->. simpl.
  assert (Hm : length (year_mask years) = h) by (rewrite year_mask_length; lia).
  split; [reflexivity|]. split.
  - rewrite firstn_all2 by lia.
    repeat match goal with
           | H : Forall _ (_ :: _) |- _ => inversion H; subst; clear H
           end.
    simpl in *.
    repeat constructor; simpl; apply select_length_count; lia.
  - exists (select (year_mask years) years). split; [reflexivity|].
    eapply Forall_impl; [|apply select_year_mask].
    intros c (y & -> & _). eauto.
Qed.

Lemma history_table_shape country w df w' :
  load_covid_data to_datetime country w = (Ok df, w') ->
  column_names df = ["date"; "confirmed"; "deaths"; "recovered"; "year"]
  /\ well_formed df
  /\ exists ycol, getitem df "year" = Ok ycol /\ integers ycol.
Proof.
  intros H.
  change (fetch to_datetime (Call_covid country) w = (Ok df, w')) in H.
  rewrite fetch_once in H. injection H as H _. simpl in H. unfold covid_table in H.
  repeat step H.
  match goal with
  | Hf : (if is_global country then _ else _) = Ok ?f |- _ =>
      destruct (history_frame_shape x1 f) as [Hn Hw];
        [destruct (is_global country); auto|]
  end.
  eapply restrict_years_shape; eauto.
Qed.

End Shape.

Lemma integers_as_int col :
  integers col ->
  exists zs, traverse as_int col = Ok zs /\ col = map (fun z => CJ (JInt z)) zs.
Proof.
  induction 1 as [|c col (z & ->) _ (zs & Hz & ->)].
  - exists []. auto.
  - exists (z :: zs). simpl. now rewrite Hz.
Qed.

Lemma integers_max_int col :
  integers col -> col <> [] -> exists m, max_int col = Ok m.
Proof.
  intros Hint Hne.
  assert (Hp : exists zs, present col = Ok zs /\ length zs = length col).
  { clear Hne. induction Hint as [|c col (z & ->) _ (zs & Hz & Hl)].
    - exists []. auto.
    - exists (z :: zs). simpl. rewrite Hz. simpl. auto. }
  destruct Hp as (zs & Hp & Hl). unfold max_int. rewrite Hp.
  destruct zs as [|z zs]; [|eauto].
  destruct col; [congruence|discriminate].
Qed.

Lemma assoc_Some_pair {A} name (cols : list (string * A)) c :
  assoc name cols = Some c -> In (name, c) cols.
Proof.
  induction cols as [|[n x] cols IH]; simpl; [discriminate|].
  destruct (String.eqb name n) eqn:E.
  - apply String.eqb_eq in E. intros [= ->]. subst. now left.
  - auto.
Qed.

Lemma getitem_length df name col :
  well_formed df -> getitem df name = Ok col -> length col = height df.
Proof.
  unfold well_formed, getitem. intros Hwf H.
  destruct (assoc name (columns df)) as [c|] eqn:E; [|discriminate].
  injection H as ->. apply assoc_Some_pair in E.
  rewrite Forall_forall in Hwf. exact (Hwf _ E).
Qed.

Lemma year_is_count y zs :
  In y zs ->
  (0 < length (filter (fun b => b)
                 (map (year_is (Some y)) (map (fun z => CJ (JInt z)) zs))))%nat.
Proof.
  induction zs as [|z zs IH]; simpl; [tauto|].
  intros [->|H].
  - rewrite Z.eqb_refl. simpl. lia.
  - destruct (z =? y); simpl; [lia|auto].
Qed.

(** C10 as stated, for every history table that is not empty, fails on a
    table whose only case count is missing: the year control offers
    2020, the table filtered to 2020 has its one row, and the confirmed
    total raises, the maximum of the column being [NaN]. *)
Lemma missing_count_breaks_total :
  ~ (forall df w' years y flt,
        load_covid_data parse_mdy None null_count_world = (Ok df, w') ->
        height df <> 0%nat ->
        available_years df = Ok years ->
        In y years ->
        filtered df (Some y) = Ok flt ->
        height flt <> 0%nat /\ exists c, total_confirmed flt = Ok c).
Proof.
  intros H.
  destruct (H null_count_history (sending url_global null_count_world) [2020] 2020
              null_count_history) as (_ & c & Hc).
  - vm_compute. reflexivity.
  - discriminate.
  - reflexivity.
  - now left.
  - reflexivity.
  - discriminate Hc.
Qed.

(** C10, as the script has it: for a history table that is not empty and whose confirmed and
    deaths columns hold integer counts, the year control offers the
    years of the table's rows, each once and in ascending order; the
    year it returns is the year of some row, so the table filtered to
    that year is not empty and the confirmed and deaths totals (maximum,
    then integer conversion) are computed without raising. *)
Theorem year_choice_keeps_totals_defined to_datetime country w df w' ui :
  load_covid_data to_datetime country w = (Ok df, w') ->
  height df <> 0%nat ->
  (forall name col, In name ["confirmed"; "deaths"] ->
                    getitem df name = Ok col -> integers col) ->
  exists years y flt c d,
    available_years df = Ok years
    /\ StronglySorted Z.lt years
    /\ (forall x, In x years
                  <-> exists i, (i < height df)%nat
                                /\ assoc "year" (row df i) = Some (CJ (JInt x)))
    /\ selectbox "Select Year" years ui = (Ok (Some y), ui)
    /\ In y years
    /\ filtered df (Some y) = Ok flt
    /\ height flt <> 0%nat
    /\ total_confirmed flt = Ok c
    /\ total_deaths flt = Ok d.
Proof.
  intros Hload Hne Hcounts.
  destruct (history_table_shape _ _ _ _ _ Hload) as (Hnames & Hwf & ycol & Hy & Hyint).
  destruct (integers_as_int _ Hyint) as (zs & Hzs & Hycol).
  pose proof (getitem_length _ _ _ Hwf Hy) as Hlen.
  destruct (available_spec zs) as [Hsorted Hmem].
  set (years := sorted (unique zs)) in *.
  assert (Hav : available_years df = Ok years).
  { unfold available_years. rewrite Hy. simpl. rewrite Hzs. reflexivity. }
  assert (Hpick : exists y, selectbox "Select Year" years ui = (Ok (Some y), ui)
                            /\ In y years).
  { unfold selectbox.
    destruct (nth_error years (picks ui "Select Year")) as [y|] eqn:E.
    - exists y. split; [reflexivity|]. eapply nth_error_In; eauto.
    - destruct years as [|y0 rest] eqn:Hyears.
      + exfalso. destruct zs as [|z zs'].
        * subst ycol. simpl in Hlen. congruence.
        * assert (In z []) by (apply Hmem; now left). contradiction.
      + exists y0. split; [reflexivity|now left]. }
  destruct Hpick as (y & Hsel & Hin).
  assert (Hyz : In y zs) by now apply Hmem.
  set (mask := map (year_is (Some y)) ycol).
  assert (Hmask : length mask = height df) by (unfold mask; now rewrite length_map).
  assert (Hcount : (0 < length (filter (fun b => b) mask))%nat).
  { unfold mask. rewrite Hycol. now apply year_is_count. }
  assert (Hflt : filtered df (Some y) = Ok (loc df mask)).
  { unfold filtered. rewrite Hy. reflexivity. }
  assert (Htotal : forall name, In name ["confirmed"; "deaths"] ->
                     exists m, rbind (getitem (loc df mask) name) max_int = Ok m).
  { intros name Hname.
    destruct (assoc_In_names name (columns df)) as [col Hcol].
    { fold (column_names df). rewrite Hnames. simpl in Hname |- *. tauto. }
    assert (Hget : getitem df name = Ok col) by (unfold getitem; now rewrite Hcol).
    rewrite getitem_loc, Hget. cbn [rbind].
    apply integers_max_int.
    - apply select_Forall. exact (Hcounts _ _ Hname Hget).
    - intros Hnil.
      assert (Hl : length (select mask col) = length (filter (fun b => b) mask)).
      { apply select_length_count. rewrite Hmask. symmetry.
        eapply getitem_length; eauto. }
      rewrite Hnil in Hl. simpl in Hl. lia. }
  destruct (Htotal "confirmed") as [c Hc]; [simpl; tauto|].
  destruct (Htotal "deaths") as [d Hd]; [simpl; tauto|].
  exists years, y, (loc df mask), c, d.
  split; [exact Hav|]. split; [exact Hsorted|]. split.
  { intros x. rewrite Hmem. split.
    - intros Hx.
      destruct (In_nth ycol (CJ (JInt x)) NA) as (i & Hi & Hnth).
      { rewrite Hycol. now apply (in_map (fun z => CJ (JInt z))). }
      exists i. split; [lia|].
      rewrite assoc_row. unfold getitem in Hy.
      destruct (assoc "year" (columns df)) as [yc|]; [|discriminate].
      injection Hy as ->. simpl. now rewrite Hnth.
    - intros (i & Hi & Hrow).
      rewrite assoc_row in Hrow. unfold getitem in Hy.
      destruct (assoc "year" (columns df)) as [yc|]; [|discriminate].
      injection Hy as ->. simpl in Hrow. injection Hrow as Hrow.
      assert (Hx : In (CJ (JInt x)) ycol).
      { rewrite <- Hrow. apply nth_In. lia. }
      rewrite Hycol in Hx. apply in_map_iff in Hx.
      destruct Hx as (z & [= ->] & Hz). exact Hz. }
  split; [exact Hsel|]. split; [exact Hin|]. split; [exact Hflt|]. split.
  { unfold loc. simpl. rewrite firstn_all2 by lia. lia. }
  split; [exact Hc|exact Hd].
Qed.

(** ** One render pass *)

(** A pass that completes has gone through every stage of the script in
    order: the snapshot fetch, the country control, the history fetch
    with what the control returned, the year control on the years of the
    history table, the filter, the three totals, the cards and the
    chart, and last the vaccine section. *)
Lemma dashboard_stages to_datetime w w' :
  dashboard to_datetime w = (Ok tt, w') ->
  exists snapshot w1 country_input df w2 years selected_year flt c d r,
    load_country_data_cached (showing page_title w) = (Ok snapshot, w1)
    /\ selectbox "Select Country" country_options (showing (bubble_map snapshot) w1)
       = (Ok (Some country_input), showing (bubble_map snapshot) w1)
    /\ In country_input country_options
    /\ load_covid_data_cached to_datetime (use_country (Some country_input))
         (showing (bubble_map snapshot) w1)
       = (Ok df, w2)
    /\ available_years df = Ok years
    /\ selectbox "Select Year" years w2 = (Ok selected_year, w2)
    /\ filtered df selected_year = Ok flt
    /\ total_confirmed flt = Ok c
    /\ total_deaths flt = Ok d
    /\ total_recovered flt = Ok r
    /\ vaccine_section to_datetime (use_country (Some country_input))
         (after_trend flt (Some country_input) selected_year c d r w2)
       = (Ok tt, w').
Proof.
  unfold dashboard, bind, after_trend, page_title, bubble_map. cbn [show]. intros H.
  match type of H with
  | context [load_country_data_cached ?x] =>
      destruct (load_country_data_cached x) as [[r|?] w0] eqn:Hs; [|discriminate H]
  end.
  unfold selectbox at 1 in H.
  assert (Hpick : exists ci,
             match nth_error country_options
                     (picks (showing (WPlotly (ScatterGeo r "lat" "long" "cases" "cases"
                                                 "country" "Total COVID-19 Cases by Country"))
                               w0) "Select Country") with
             | Some x => Some x
             | None => hd_error country_options
             end = Some ci /\ In ci country_options).
  { destruct (nth_error country_options _) as [x|] eqn:E.
    - exists x. split; [reflexivity|]. eapply nth_error_In; eauto.
    - exists "Global". split; [reflexivity|now left]. }
  destruct Hpick as (ci & Hci & Hin). rewrite Hci in H.
  match type of H with
  | context [load_covid_data_cached to_datetime ?a ?x] =>
      destruct (load_covid_data_cached to_datetime a x) as [[r0|?] w1] eqn:Hh;
        [|discriminate H]
  end.
  unfold lift at 1 in H. destruct (available_years r0) as [years|] eqn:Hy; [|discriminate H].
  unfold selectbox in H.
  set (sel := match nth_error years (picks w1 "Select Year") with
              | Some x => Some x
              | None => hd_error years
              end) in H.
  unfold lift at 1 in H. destruct (filtered r0 sel) as [flt|] eqn:Hf; [|discriminate H].
  unfold lift at 1 in H. destruct (total_confirmed flt) as [c|] eqn:Hc; [|discriminate H].
  unfold lift at 1 in H. destruct (total_deaths flt) as [d|] eqn:Hd; [|discriminate H].
  unfold lift at 1 in H. destruct (total_recovered flt) as [rc|] eqn:Hr; [|discriminate H].
  cbn [metric_cards show_all bind show ret] in H.
  exists r, w0, ci, r0, w1, years, sel, flt, c, d, rc.
  split; [reflexivity|]. split; [unfold selectbox; now rewrite Hci|].
  repeat (split; [first [assumption|reflexivity]|]). exact H.
Qed.

(** ** Worked instances *)

Lemma global_run :
  load_covid_data parse_mdy None global_world
  = (Ok global_history, sending url_global global_world).
Proof. vm_compute. reflexivity. Qed.

Lemma every_row_within_2020_2023_instance :
  load_covid_data parse_mdy None global_world
  = (Ok global_history, sending url_global global_world)
  /\ row_in_range (row global_history 0).
Proof.
  split; [exact global_run|].
  apply (every_row_within_2020_2023 parse_mdy None "" global_world global_history
           (sending url_global global_world) (or_introl global_run) 0%nat).
  simpl. lia.
Defined.

Lemma global_history_pairs_by_position_instance :
  (exists df,
      load_covid_data parse_mdy None global_world
      = (Ok df, sending url_global global_world)
      /\ rows_of df
         = [[("date", CDate (mkdate 2020 1 22)); ("confirmed", CJ (JInt 1));
             ("deaths", CJ (JInt 0)); ("recovered", NA); ("year", CJ (JInt 2020))];
            [("date", CDate (mkdate 2020 1 23)); ("confirmed", CJ (JInt 5));
             ("deaths", CJ (JInt 2)); ("recovered", NA); ("year", CJ (JInt 2020))]])
  /\ (exists df others,
         load_covid_data parse_mdy None global_world
         = (Ok df, sending url_global global_world)
         /\ rows_of df
            = [("date", CDate (mkdate 2020 1 22)); ("confirmed", CJ (JInt 1));
               ("deaths", CJ (JInt 0)); ("recovered", NA);
               ("year", CJ (JInt 2020))] :: others).
Proof.
  split.
  - refine (proj1 global_history_pairs_by_position parse_mdy global_world 200
              [("cases", JObj [("1/22/20", JInt 1); ("1/23/20", JInt 5); ("1/1/24", JInt 9)]);
               ("deaths", JObj [("1/22/20", JInt 0); ("1/23/20", JInt 2); ("1/1/24", JInt 4)])]
              [("1/22/20", JInt 1); ("1/23/20", JInt 5); ("1/1/24", JInt 9)]
              [("1/22/20", JInt 0); ("1/23/20", JInt 2); ("1/1/24", JInt 4)]
              [mkdate 2020 1 22; mkdate 2020 1 23; mkdate 2024 1 1]
              _ _ _ _ _ _ _).
    + reflexivity.
    + left. lia.
    + reflexivity.
    + reflexivity.
    + reflexivity.
    + exact I.
    + repeat constructor.
  - refine (proj2 global_history_pairs_by_position parse_mdy global_world 200
              [("1/23/20", JInt 5); ("1/1/24", JInt 9)]
              [("1/23/20", JInt 2); ("1/1/24", JInt 4)]
              [mkdate 2020 1 23; mkdate 2024 1 1]
              _ _ _ _ _).
    + reflexivity.
    + left. lia.
    + reflexivity.
    + reflexivity.
    + repeat constructor.
Defined.

Lemma missing_recovered_is_a_null_column_instance :
  exists df,
    load_covid_data parse_mdy None global_world
    = (Ok df, sending url_global global_world)
    /\ getitem df "recovered" = Ok [NA; NA]
    /\ exists flt, filtered df (Some 2020) = Ok flt /\ total_recovered flt = Ok None.
Proof.
  destruct (missing_recovered_is_a_null_column parse_mdy None global_world 200
              global_payload
              [("cases", JObj [("1/22/20", JInt 1); ("1/23/20", JInt 5); ("1/1/24", JInt 9)]);
               ("deaths", JObj [("1/22/20", JInt 0); ("1/23/20", JInt 2); ("1/1/24", JInt 4)])]
              [("1/22/20", JInt 1); ("1/23/20", JInt 5); ("1/1/24", JInt 9)]
              [("1/22/20", JInt 0); ("1/23/20", JInt 2); ("1/1/24", JInt 4)]
              [mkdate 2020 1 22; mkdate 2020 1 23; mkdate 2024 1 1])
    as (df & col & Hload & _ & Hcol & _ & Hsel).
  - reflexivity.
  - left. lia.
  - reflexivity.
  - reflexivity.
  - reflexivity.
  - reflexivity.
  - reflexivity.
  - repeat constructor.
  - exists df. split; [exact Hload|].
    destruct (Hsel (Some 2020)) as (flt & Hflt & Hrec & _).
    split; [|exists flt; auto].
    rewrite global_run in Hload. injection Hload as <-. reflexivity.
Defined.

Lemma no_timeline_gives_empty_vaccine_table_instance :
  exists df w',
    load_vaccine_data parse_mdy "USA" no_vaccine_world
    = (Ok df, sending (url_vaccine "USA") no_vaccine_world)
    /\ column_names df = ["date"; "total"]
    /\ vaccine_section parse_mdy (Some "USA") no_vaccine_world = (Ok tt, w')
    /\ shown w' = [WWarning "No vaccination data available for USA."].
Proof.
  destruct (no_timeline_gives_empty_vaccine_table parse_mdy "USA" no_vaccine_world 200
              [("country", JStr "USA"); ("timeline", JArr [])])
    as (df & Hload & _ & Hnames & Hshow).
  - reflexivity.
  - left. lia.
  - right. reflexivity.
  - destruct Hshow as (w' & Hrun & Hw'); [discriminate|reflexivity|].
    exists df, w'. auto.
Defined.

Lemma snapshot_keeps_six_fields_instance :
  exists df,
    load_country_data snapshot_world = (Ok df, sending url_countries snapshot_world)
    /\ column_names df = ["country"; "cases"; "deaths"; "recovered"; "lat"; "long"]
    /\ assoc "lat" (row df 1) = Some NA.
Proof.
  destruct (snapshot_keeps_six_fields snapshot_world 200
              [JObj [("country", JStr "Atlantis"); ("cases", JInt 1200);
                     ("deaths", JInt 30); ("recovered", JInt 1100);
                     ("countryInfo", JObj [("lat", JInt 35); ("long", JInt 25)])];
               JObj [("country", JStr "Lemuria"); ("cases", JInt 40); ("deaths", JInt 2);
                     ("recovered", JInt 38);
                     ("countryInfo", JObj [("long", JInt 70)])]]
              [[("country", JStr "Atlantis"); ("cases", JInt 1200);
                ("deaths", JInt 30); ("recovered", JInt 1100);
                ("countryInfo", JObj [("lat", JInt 35); ("long", JInt 25)])];
               [("country", JStr "Lemuria"); ("cases", JInt 40); ("deaths", JInt 2);
                ("recovered", JInt 38);
                ("countryInfo", JObj [("long", JInt 70)])]])
    as (df & Hload & Hnames & _ & Hrows).
  - reflexivity.
  - reflexivity.
  - discriminate.
  - repeat constructor; eexists; reflexivity.
  - intros k Hk. eexists. split; [left; reflexivity|].
    simpl in Hk |- *. tauto.
  - exists df. split; [exact Hload|]. split; [exact Hnames|].
    destruct (Hrows 1%nat _ [("long", JInt 70)] eq_refl eq_refl) as (_ & _ & Hlat & _).
    apply Hlat. reflexivity.
Defined.


Lemma year_choice_keeps_totals_defined_instance :
  exists years y flt c d,
    available_years global_history = Ok years
    /\ selectbox "Select Year" years global_world = (Ok (Some y), global_world)
    /\ filtered global_history (Some y) = Ok flt
    /\ height flt <> 0%nat
    /\ total_confirmed flt = Ok c
    /\ total_deaths flt = Ok d.
Proof.
  destruct (year_choice_keeps_totals_defined parse_mdy None global_world global_history
              (sending url_global global_world) global_world global_run)
    as (years & y & flt & c & d & Hav & _ & _ & Hsel & _ & Hflt & Hne & Hc & Hd).
  - discriminate.
  - intros name col Hname Hget. simpl in Hname.
    destruct Hname as [<-|[<-|[]]]; injection Hget as <-;
      repeat constructor; eexists; reflexivity.
  - exists years, y, flt, c, d. auto 10.
Defined.

(** * Further properties of the script *)

(** ** Requests *)

(** X1: each of the three functions issues exactly one GET, to its own
    URL, whatever the reply and whether it returns or raises; it shows
    nothing and leaves the memoisation store, the clock and the network
    as they were. *)
Theorem every_fetch_is_one_get to_datetime k w :
  sent (snd (fetch to_datetime k w)) = (sent w ++ [url_of k])%list
  /\ shown (snd (fetch to_datetime k w)) = shown w
  /\ memo (snd (fetch to_datetime k w)) = memo w
  /\ clock (snd (fetch to_datetime k w)) = clock w
  /\ net (snd (fetch to_datetime k w)) = net w.
Proof. rewrite fetch_once. simpl. auto. Qed.

(** X2: a GET that cannot be completed raises a connection error in all
    three functions; a reply with a client or server error status raises
    an HTTP error in the history and the vaccination function; a reply
    that passes (for the snapshot: any reply) whose body is not JSON
    raises a decoding error.  In each case the one GET has been issued
    and no table is returned. *)
Theorem failed_get_raises to_datetime k w :
  (net w (url_of k) = Unreachable ->
   fetch to_datetime k w = (Raise ConnectionError, sending (url_of k) w))
  /\ (forall s b, net w (url_of k) = Response s b -> 400 <= s < 600 ->
                  k <> Call_country ->
                  fetch to_datetime k w = (Raise (HTTPError s), sending (url_of k) w))
  /\ (forall s, net w (url_of k) = Response s None ->
                passes s \/ k = Call_country ->
                fetch to_datetime k w = (Raise JSONDecodeError, sending (url_of k) w)).
Proof.
  rewrite fetch_once. split; [|split].
  - intros ->. destruct k; reflexivity.
  - intros s b -> Hs Hk.
    assert (Hst : raise_for_status (Response s b) = Raise (HTTPError s)).
    { unfold raise_for_status.
      replace (400 <=? s) with true by (symmetry; apply Z.leb_le; lia).
      replace (s <? 600) with true by (symmetry; apply Z.ltb_lt; lia). reflexivity. }
    destruct k; try congruence; simpl table_of;
      unfold covid_table, vaccine_table; cbn [answer rbind]; now rewrite Hst.
  - intros s -> Hs.
    destruct k as [country|country|]; simpl table_of;
      unfold covid_table, vaccine_table, country_table; cbn [answer rbind];
      try reflexivity;
      (destruct Hs as [Hs|Hs]; [|discriminate Hs]);
      now rewrite (raise_for_status_passes _ _ Hs).
Qed.

Lemma failed_get_raises_instance :
  fetch parse_mdy (Call_vaccine "USA") outage_world
  = (Raise (HTTPError 503), sending (url_vaccine "USA") outage_world).
Proof.
  refine (proj1 (proj2 (failed_get_raises parse_mdy (Call_vaccine "USA") outage_world))
            503 _ eq_refl _ _).
  - lia.
  - discriminate.
Defined.

(** ** History tables *)

Lemma country_frame_as_global m :
  country_frame (JObj m) = global_frame (history_series (Some "") m).
Proof.
  unfold history_series. simpl is_global. cbv iota.
  unfold country_frame. cbn [py_get].
  destruct (assoc "timeline" m) as [t|]; cbn [rbind]; [|reflexivity].
  destruct t as [| | | | |tm]; try reflexivity.
  unfold global_frame, py_in, py_getitem, py_get.
  destruct (assoc "recovered" tm); reflexivity.
Qed.

Lemma history_frame_of_series country m :
  (if is_global country then global_frame (JObj m) else country_frame (JObj m))
  = global_frame (history_series country m).
Proof.
  unfold history_series. destruct (is_global country); [reflexivity|].
  apply country_frame_as_global.
Qed.

Lemma load_history_passed to_datetime country w s m :
  net w (url_of (Call_covid country)) = Response s (Some (JObj m)) -> passes s ->
  load_covid_data to_datetime country w
  = (rbind (global_frame (history_series country m)) (restrict_years to_datetime),
     sending (url_of (Call_covid country)) w).
Proof.
  intros Hnet Hp.
  change (load_covid_data to_datetime country w)
    with (fetch to_datetime (Call_covid country) w).
  rewrite fetch_once, Hnet. simpl table_of. unfold covid_table. cbn [answer rbind].
  rewrite (raise_for_status_passes _ _ Hp). cbn [rbind resp_json].
  now rewrite history_frame_of_series.
Qed.

(** X3: every table the history function returns, global or for a
    country, has exactly the columns date, confirmed, deaths, recovered,
    year in this order, each as long as the index, and integer years. *)
Theorem history_tables_have_one_shape to_datetime country w df w' :
  load_covid_data to_datetime country w = (Ok df, w') ->
  column_names df = ["date"; "confirmed"; "deaths"; "recovered"; "year"]
  /\ well_formed df
  /\ (empty df = true <-> height df = 0%nat)
  /\ exists years, getitem df "year" = Ok years /\ integers years.
Proof.
  intros H.
  destruct (history_table_shape _ _ _ _ _ H) as (Hn & Hw & Hy).
  split; [exact Hn|]. split; [exact Hw|]. split; [|exact Hy].
  unfold empty. unfold column_names in Hn.
  destruct (columns df); [discriminate|].
  rewrite orb_false_r. apply Nat.eqb_eq.
Qed.

Lemma history_tables_have_one_shape_instance :
  column_names global_history = ["date"; "confirmed"; "deaths"; "recovered"; "year"]
  /\ well_formed global_history.
Proof.
  destruct (history_tables_have_one_shape parse_mdy None global_world global_history
              (sending url_global global_world) global_run) as (Hn & Hw & _).
  split; assumption.
Defined.

(** X4: a history reply that passes the status check but has no "cases"
    member where the script reads it raises [KeyError] for "cases"; with
    "cases" present and "deaths" absent it raises [KeyError] for
    "deaths".  For a country this includes a reply without "timeline",
    which the script reads as an empty object. *)
Theorem missing_series_raises_KeyError to_datetime country w s m tm :
  net w (url_of (Call_covid country)) = Response s (Some (JObj m)) -> passes s ->
  history_series country m = JObj tm ->
  (assoc "cases" tm = None ->
   load_covid_data to_datetime country w
   = (Raise (KeyError "cases"), sending (url_of (Call_covid country)) w))
  /\ (forall cases,
         assoc "cases" tm = Some (JObj cases) -> assoc "deaths" tm = None ->
         load_covid_data to_datetime country w
         = (Raise (KeyError "deaths"), sending (url_of (Call_covid country)) w)).
Proof.
  intros Hnet Hp Hs. rewrite (load_history_passed _ _ _ _ _ Hnet Hp), Hs.
  unfold global_frame. cbn [py_getitem]. split.
  - intros ->. reflexivity.
  - intros cases -> Hd. cbn [rbind py_keys py_values]. rewrite Hd. reflexivity.
Qed.

Lemma missing_series_raises_KeyError_instance :
  load_covid_data parse_mdy (Some "USA")
    (serving (url_history "USA") (JObj [("message", JStr "no data")]))
  = (Raise (KeyError "cases"),
     sending (url_history "USA")
       (serving (url_history "USA") (JObj [("message", JStr "no data")]))).
Proof.
  refine (proj1 (missing_series_raises_KeyError parse_mdy (Some "USA")
                   (serving (url_history "USA") (JObj [("message", JStr "no data")]))
                   200 [("message", JStr "no data")] [] _ _ _) _).
  - reflexivity.
  - left. lia.
  - reflexivity.
  - reflexivity.
Defined.

(** X5: when the cases and the deaths series of a history reply differ
    in length, the function raises [ValueError] and returns no table:
    nothing is truncated or padded. *)
Theorem unequal_series_raise_ValueError to_datetime country w s m tm cases deaths :
  net w (url_of (Call_covid country)) = Response s (Some (JObj m)) -> passes s ->
  history_series country m = JObj tm ->
  assoc "cases" tm = Some (JObj cases) ->
  assoc "deaths" tm = Some (JObj deaths) ->
  (assoc "recovered" tm = None \/ exists r, assoc "recovered" tm = Some (JObj r)) ->
  length deaths <> length cases ->
  load_covid_data to_datetime country w
  = (Raise ValueError, sending (url_of (Call_covid country)) w).
Proof.
  intros Hnet Hp Hs Hc Hd Hr Hl.
  rewrite (load_history_passed _ _ _ _ _ Hnet Hp), Hs.
  unfold global_frame. cbn [py_getitem py_in py_get]. rewrite Hc, Hd.
  cbn [rbind py_keys py_values].
  assert (Hneq : Nat.eqb (length cases) (length deaths) = false)
    by (apply Nat.eqb_neq; congruence).
  destruct Hr as [->|(r & ->)]; cbn [rbind py_values];
    unfold frame_of_dict, common_length, list_lengths, str_cells; simpl;
    rewrite !length_map, Nat.eqb_refl, Hneq; reflexivity.
Qed.

Lemma unequal_series_raise_ValueError_instance :
  fst (load_covid_data parse_mdy None
         (serving url_global
            (JObj [("cases", JObj [("1/22/20", JInt 1); ("1/23/20", JInt 5)]);
                   ("deaths", JObj [("1/22/20", JInt 0)])])))
  = Raise ValueError.
Proof.
  rewrite (unequal_series_raise_ValueError parse_mdy None _ 200
             [("cases", JObj [("1/22/20", JInt 1); ("1/23/20", JInt 5)]);
              ("deaths", JObj [("1/22/20", JInt 0)])]
             [("cases", JObj [("1/22/20", JInt 1); ("1/23/20", JInt 5)]);
              ("deaths", JObj [("1/22/20", JInt 0)])]
             [("1/22/20", JInt 1); ("1/23/20", JInt 5)] [("1/22/20", JInt 0)]).
  - reflexivity.
  - reflexivity.
  - left. lia.
  - reflexivity.
  - reflexivity.
  - reflexivity.
  - left. reflexivity.
  - discriminate.
Defined.

Lemma traverse_date_strings_fail to_datetime dates bad :
  In bad dates -> to_datetime bad = None ->
  traverse (to_datetime_cell to_datetime) (str_cells dates) = Raise ValueError.
Proof.
  intros Hin Hbad. unfold str_cells.
  induction dates as [|k dates IH]; [contradiction|].
  cbn [map traverse to_datetime_cell].
  destruct (to_datetime k) as [d|] eqn:Hk; [|reflexivity].
  destruct Hin as [->|Hin]; [congruence|]. now rewrite (IH Hin).
Qed.

(** X6: one date key of the cases series that [pd.to_datetime] cannot
    read makes the history function raise [ValueError]; no row is
    skipped and no table is returned. *)
Theorem unreadable_date_raises_ValueError
    to_datetime country w s m tm cases deaths bad :
  net w (url_of (Call_covid country)) = Response s (Some (JObj m)) -> passes s ->
  history_series country m = JObj tm ->
  assoc "cases" tm = Some (JObj cases) ->
  assoc "deaths" tm = Some (JObj deaths) ->
  length deaths = length cases ->
  recovered_fits tm (length cases) ->
  In bad (map fst cases) -> to_datetime bad = None ->
  load_covid_data to_datetime country w
  = (Raise ValueError, sending (url_of (Call_covid country)) w).
Proof.
  intros Hnet Hp Hs Hc Hd Hl Hr Hin Hbad.
  rewrite (load_history_passed _ _ _ _ _ Hnet Hp), Hs.
  destruct (frame_of_series tm cases deaths Hc Hd Hl Hr) as [-> _].
  cbn [rbind]. unfold restrict_years, getitem. cbn [columns assoc].
  change (String.eqb "date" "date") with true. cbv iota. cbn [rbind].
  now rewrite (traverse_date_strings_fail _ _ _ Hin Hbad).
Qed.

Lemma unreadable_date_raises_ValueError_instance :
  fst (load_covid_data parse_mdy None
         (serving url_global
            (JObj [("cases", JObj [("1/22/20", JInt 1); ("13/45/20", JInt 5)]);
                   ("deaths", JObj [("1/22/20", JInt 0); ("13/45/20", JInt 2)])])))
  = Raise ValueError.
Proof.
  rewrite (unreadable_date_raises_ValueError parse_mdy None _ 200
             [("cases", JObj [("1/22/20", JInt 1); ("13/45/20", JInt 5)]);
              ("deaths", JObj [("1/22/20", JInt 0); ("13/45/20", JInt 2)])]
             [("cases", JObj [("1/22/20", JInt 1); ("13/45/20", JInt 5)]);
              ("deaths", JObj [("1/22/20", JInt 0); ("13/45/20", JInt 2)])]
             [("1/22/20", JInt 1); ("13/45/20", JInt 5)]
             [("1/22/20", JInt 0); ("13/45/20", JInt 2)] "13/45/20").
  - reflexivity.
  - reflexivity.
  - left. lia.
  - reflexivity.
  - reflexivity.
  - reflexivity.
  - reflexivity.
  - exact I.
  - simpl. tauto.
  - reflexivity.
Defined.

(** X7: the table returned for a country is the table the global path
    returns when it is served that country's "timeline" member (an empty
    object when the member is absent) with the same status: the two
    branches differ in where they read the series, not in what they
    build, and they raise alike. *)
Theorem country_history_built_like_global to_datetime c w w' s m :
  is_global (Some c) = false ->
  net w (url_history c) = Response s (Some (JObj m)) ->
  net w' url_global = Response s (Some (history_series (Some c) m)) ->
  fst (load_covid_data to_datetime (Some c) w)
  = fst (load_covid_data to_datetime None w').
Proof.
  intros Hg Hnet Hnet'.
  change (load_covid_data to_datetime (Some c) w)
    with (fetch to_datetime (Call_covid (Some c)) w).
  change (load_covid_data to_datetime None w')
    with (fetch to_datetime (Call_covid None) w').
  rewrite !fetch_once. cbn [fst url_of]. rewrite Hg. cbn [is_global].
  rewrite Hnet, Hnet'. cbn [table_of]. unfold covid_table. cbn [answer rbind].
  unfold raise_for_status.
  destruct ((400 <=? s) && (s <? 600)); [reflexivity|]. cbn [rbind resp_json].
  rewrite Hg. cbn [is_global].
  rewrite country_frame_as_global. unfold history_series. rewrite Hg. reflexivity.
Qed.

Lemma country_history_built_like_global_instance :
  fst (load_covid_data parse_mdy (Some "USA")
         (serving (url_history "USA")
            (JObj [("country", JStr "USA"); ("timeline", global_payload)])))
  = Ok global_history.
Proof.
  rewrite (country_history_built_like_global parse_mdy "USA" _ global_world 200
             [("country", JStr "USA"); ("timeline", global_payload)]).
  - now rewrite global_run.
  - reflexivity.
  - reflexivity.
  - reflexivity.
Defined.

(** ** The vaccination panel *)

Lemma select_as_filter {A B} (p : A -> bool) (l : list A) (l' : list B) :
  length l' = length l ->
  select (map p l) l' = map snd (filter (fun x => p (fst x)) (combine l l')).
Proof.
  revert l'. induction l as [|a l IH]; intros [|b l'] H; simpl in *; try discriminate; auto.
  destruct (p a); simpl; rewrite IH by lia; reflexivity.
Qed.

Lemma filter_combine_length {A B} (p : A -> bool) (l : list A) (l' : list B) :
  length l' = length l ->
  length (filter p l) = length (filter (fun x => p (fst x)) (combine l l')).
Proof.
  revert l'. induction l as [|a l IH]; intros [|b l'] H; simpl in *; try discriminate; auto.
  destruct (p a); simpl; rewrite (IH l') by lia; reflexivity.
Qed.

Lemma set_column_not_nil name values cols : set_column name values cols <> [].
Proof.
  destruct cols as [|[n c] cols]; simpl; [discriminate|].
  destruct (String.eqb name n); discriminate.
Qed.

Lemma traverse_record_dates to_datetime recs ds :
  Forall2 (fun r d => exists text, assoc "date" r = Some (JStr text)
                                   /\ to_datetime text = Some d) recs ds ->
  traverse (to_datetime_cell to_datetime) (map (field "date") recs) = Ok (map CDate ds).
Proof.
  induction 1 as [|r d recs ds (text & Hr & Ht) _ IH]; [reflexivity|].
  cbn [map traverse]. unfold field at 1. rewrite Hr. cbn [to_datetime_cell].
  now rewrite Ht, IH.
Qed.

Lemma record_totals recs ts :
  Forall2 (fun r t => assoc "total" r = Some (JInt t)) recs ts ->
  map (field "total") recs = map (fun t => CJ (JInt t)) ts.
Proof.
  induction 1 as [|r t recs ts Hr _ IH]; [reflexivity|].
  cbn [map]. unfold field at 1. now rewrite Hr, IH.
Qed.

Lemma integers_of_Z ts : integers (map (fun t => CJ (JInt t)) ts).
Proof. induction ts; constructor; eauto. Qed.

Lemma present_of_Z ts : present (map (fun t => CJ (JInt t)) ts) = Ok ts.
Proof. induction ts as [|t ts IH]; simpl; auto. now rewrite IH. Qed.

(** The vaccination table of a reply whose timeline is a list of records
    with a readable date and an integer total: its total column holds
    the totals of the records dated 2020-2023, in order. *)
Lemma vaccine_table_totals to_datetime s m items recs ds ts :
  passes s ->
  assoc "timeline" m = Some (JArr items) ->
  traverse as_record items = Ok recs -> recs <> [] ->
  Forall2 (fun r d => exists text, assoc "date" r = Some (JStr text)
                                   /\ to_datetime text = Some d) recs ds ->
  Forall2 (fun r t => assoc "total" r = Some (JInt t)) recs ts ->
  let kept := map snd (filter (fun dt => in_range (year (fst dt))) (combine ds ts)) in
  exists df,
    vaccine_table to_datetime (Response s (Some (JObj m))) = Ok df
    /\ height df = length kept
    /\ columns df <> []
    /\ getitem df "total" = Ok (map (fun t => CJ (JInt t)) kept).
Proof.
  intros Hp Ht Hrecs Hne Hdates Htotals kept.
  pose proof (Forall2_length Hdates) as Hld.
  pose proof (Forall2_length Htotals) as Hlt.
  assert (Hitems : truthy (JArr items) = true).
  { destruct items; [|reflexivity]. simpl in Hrecs. injection Hrecs as <-. congruence. }
  set (labels := record_labels [] recs).
  assert (Hlab : forall k v, (exists r rest, recs = r :: rest /\ assoc k r = Some v) ->
                             In k labels).
  { intros k v (r & rest & -> & Hk). apply record_labels_In. right.
    exists r. split; [now left|]. eapply assoc_Some_In; eauto. }
  assert (Hdate : In "date" labels).
  { destruct Hdates as [|r d recs' ds' (text & Hr & _) _]; [congruence|].
    eapply Hlab; eauto. }
  assert (Htotal : In "total" labels).
  { destruct Htotals as [|r t recs' ts' Hr _]; [congruence|].
    eapply Hlab; eauto. }
  set (cols := map (fun k => (k, map (field k) recs)) labels).
  set (mask := map (fun d => in_range (year d)) ds).
  exists (loc (mkframe (length recs)
                 (set_column "year" (map (fun d => CJ (JInt (year d))) ds)
                    (set_column "date" (map CDate ds) cols)))
              mask).
  split; [|split; [|split]].
  - unfold vaccine_table. cbn [answer rbind].
    rewrite (raise_for_status_passes _ _ Hp). cbn [rbind resp_json py_get].
    rewrite Ht. cbn [rbind]. rewrite Hitems. cbn [negb pd_DataFrame].
    rewrite Hrecs. cbn [rbind]. fold labels. fold cols.
    unfold restrict_years. unfold getitem at 1. cbn [columns]. unfold cols at 1.
    rewrite (assoc_tabulate (fun k => map (field k) recs)) by exact Hdate. cbn [rbind].
    rewrite (traverse_record_dates _ _ _ Hdates). cbn [rbind].
    unfold setitem at 1. cbn [height columns]. rewrite length_map, <- Hld, Nat.eqb_refl.
    cbn [rbind].
    unfold getitem at 1. cbn [columns]. rewrite assoc_set_column_same. cbn [rbind].
    rewrite traverse_year_dates. cbn [rbind].
    unfold setitem. cbn [height columns]. rewrite length_map, <- Hld, Nat.eqb_refl.
    cbn [rbind].
    unfold getitem. cbn [columns]. rewrite assoc_set_column_same. cbn [rbind].
    now rewrite year_mask_dates.
  - unfold loc. cbn [height]. rewrite firstn_all2 by (unfold mask; rewrite length_map; lia).
    unfold kept, mask. rewrite length_map, count_filter.
    apply (filter_combine_length (fun d => in_range (year d))). lia.
  - unfold loc. cbn [columns]. intros Hnil. apply map_eq_nil in Hnil.
    exact (set_column_not_nil _ _ _ Hnil).
  - rewrite getitem_loc. unfold getitem. cbn [columns].
    rewrite !assoc_set_column_other by reflexivity.
    unfold cols. rewrite (assoc_tabulate (fun k => map (field k) recs)) by exact Htotal.
    rewrite (record_totals _ _ Htotals). unfold mask, kept.
    rewrite select_map. f_equal. f_equal.
    apply (select_as_filter (fun d => in_range (year d))). lia.
Qed.

(** X8: for a vaccination reply whose timeline is a non-empty list of
    records with a readable date and an integer total, the vaccine
    section issues the one GET and then shows either the warning alone,
    when no record is dated 2020-2023, or the subheader, the metric and
    the line chart, the metric being the greatest total among the
    records dated 2020-2023, written with thousands separators. *)
Theorem vaccine_section_shows_maximum_in_range
    to_datetime c w s m items recs ds ts :
  net w (url_vaccine c) = Response s (Some (JObj m)) -> passes s ->
  assoc "timeline" m = Some (JArr items) ->
  traverse as_record items = Ok recs -> recs <> [] ->
  Forall2 (fun r d => exists text, assoc "date" r = Some (JStr text)
                                   /\ to_datetime text = Some d) recs ds ->
  Forall2 (fun r t => assoc "total" r = Some (JInt t)) recs ts ->
  c <> "" -> fresh w (Call_vaccine c) = None ->
  let kept := map snd (filter (fun dt => in_range (year (fst dt))) (combine ds ts)) in
  exists w',
    vaccine_section to_datetime (Some c) w = (Ok tt, w')
    /\ sent w' = (sent w ++ [url_vaccine c])%list
    /\ match kept with
       | [] =>
           shown w'
           = (shown w
              ++ [WWarning ("No vaccination data available for " ++ c ++ ".")])%list
       | _ :: _ =>
           exists greatest df,
             In greatest kept
             /\ (forall t, In t kept -> t <= greatest)
             /\ height df = length kept
             /\ shown w'
                = (shown w
                   ++ [WSubheader ("💉 COVID-19 Vaccinations in " ++ c);
                       WMetric "Total Vaccines Administered" (format_comma greatest);
                       WPlotly (Line df "date" ["total"]
                                  ("Daily Cumulative Vaccinations: " ++ c
                                   ++ " (2020-2023)"))])%list
       end.
Proof.
  intros Hnet Hp Ht Hrecs Hne Hdates Htotals Hc Hfresh kept.
  destruct (vaccine_table_totals to_datetime s m items recs ds ts
              Hp Ht Hrecs Hne Hdates Htotals)
    as (df & Htable & Hheight & Hcols & Htotal).
  fold kept in Hheight, Htotal.
  unfold vaccine_section.
  destruct (String.eqb c "") eqn:E; [apply String.eqb_eq in E; contradiction|].
  unfold bind.
  change (load_vaccine_data_cached to_datetime c)
    with (fetch_cached to_datetime (Call_vaccine c)).
  rewrite (cache_miss _ _ _ Hfresh). cbn [url_of table_of]. rewrite Hnet, Htable.
  unfold vaccine_panel, empty. rewrite Hheight.
  destruct kept as [|t0 rest] eqn:Hkept.
  - cbn [length Nat.eqb orb negb]. eexists. split; [reflexivity|]. split; reflexivity.
  - cbn [length Nat.eqb orb].
    destruct (columns df) as [|col cols'] eqn:Hcd; [congruence|]. cbn [negb].
    unfold bind, lift. rewrite Htotal. cbn [rbind].
    unfold max_int. rewrite present_of_Z. cbn [show].
    eexists. split; [reflexivity|]. split; [reflexivity|].
    destruct (maximum_spec rest t0) as (Hin & Hle & Hall).
    exists (maximum t0 rest), df.
    split; [destruct Hin as [Heq|Hin]; [left; now symmetry|now right]|]. split.
    + intros t [<-|Hin']; [exact Hle|]. rewrite Forall_forall in Hall. auto.
    + split; [exact Hheight|].
      cbn [shown showing storing sending]. rewrite <- !app_assoc. reflexivity.
Qed.

Lemma vaccine_section_shows_maximum_in_range_instance :
  exists w' df,
    vaccine_section parse_mdy (Some "USA") (serving (url_vaccine "USA") vaccine_payload)
    = (Ok tt, w')
    /\ shown w'
       = [WSubheader "💉 COVID-19 Vaccinations in USA";
          WMetric "Total Vaccines Administered" "2,500";
          WPlotly (Line df "date" ["total"]
                     "Daily Cumulative Vaccinations: USA (2020-2023)")].
Proof.
  destruct (vaccine_section_shows_maximum_in_range parse_mdy "USA"
              (serving (url_vaccine "USA") vaccine_payload) 200
              [("country", JStr "USA");
               ("timeline",
                JArr [JObj [("total", JInt 100); ("daily", JInt 100);
                            ("date", JStr "12/1/20")];
                      JObj [("total", JInt 2500); ("daily", JInt 2400);
                            ("date", JStr "12/2/20")];
                      JObj [("total", JInt 9000); ("daily", JInt 6500);
                            ("date", JStr "1/1/24")]])]
              [JObj [("total", JInt 100); ("daily", JInt 100); ("date", JStr "12/1/20")];
               JObj [("total", JInt 2500); ("daily", JInt 2400); ("date", JStr "12/2/20")];
               JObj [("total", JInt 9000); ("daily", JInt 6500); ("date", JStr "1/1/24")]]
              [[("total", JInt 100); ("daily", JInt 100); ("date", JStr "12/1/20")];
               [("total", JInt 2500); ("daily", JInt 2400); ("date", JStr "12/2/20")];
               [("total", JInt 9000); ("daily", JInt 6500); ("date", JStr "1/1/24")]]
              [mkdate 2020 12 1; mkdate 2020 12 2; mkdate 2024 1 1]
              [100; 2500; 9000])
    as (w' & Hrun & _ & Hshown).
  - reflexivity.
  - left. lia.
  - reflexivity.
  - reflexivity.
  - discriminate.
  - repeat constructor; eexists; split; reflexivity.
  - repeat constructor.
  - discriminate.
  - reflexivity.
  - simpl in Hshown. destruct Hshown as (greatest & df & Hin & Hmax & _ & Hshown).
    assert (greatest = 2500).
    { destruct Hin as [<-|[<-|[]]]; [|reflexivity].
      specialize (Hmax 2500 (or_intror (or_introl eq_refl))). lia. }
    subst greatest. exists w', df. split; [exact Hrun|exact Hshown].
Defined.

(** ** The snapshot without geographic information *)

Lemma assoc_tabulate_None {A} (f : string -> A) k labels :
  ~ In k labels -> assoc k (map (fun n => (n, f n)) labels) = None.
Proof.
  induction labels as [|n labels IH]; simpl; [reflexivity|].
  intros H. destruct (String.eqb k n) eqn:E.
  - apply String.eqb_eq in E. subst. tauto.
  - apply IH. tauto.
Qed.

Lemma traverse_info_get_fail k recs :
  (exists r, In r recs /\ assoc "countryInfo" r = None) ->
  traverse (info_get k) (map (field "countryInfo") recs) = Raise AttributeError.
Proof.
  induction recs as [|r recs IH]; intros (r0 & Hin & Hr0); [contradiction|].
  cbn [map traverse].
  destruct (info_get k (field "countryInfo" r)) as [b|e] eqn:Hb.
  - destruct Hin as [->|Hin].
    + unfold field in Hb. rewrite Hr0 in Hb. discriminate.
    + rewrite IH by eauto. reflexivity.
  - unfold info_get in Hb.
    destruct (field "countryInfo" r) as [[| | | | |g]|]; congruence.
Qed.

Lemma getitem_mkframe n cols k :
  getitem (mkframe n cols) k
  = match assoc k cols with
    | Some c => Ok c
    | None => Raise (KeyError k)
    end.
Proof. reflexivity. Qed.

(** X9: the snapshot function needs the nested "countryInfo" object in
    every country object.  When no object of the list has it (an empty
    list included), reading the column raises [KeyError]; when some have
    it and one lacks it, reading the latitude of that one raises
    [AttributeError].  No table is returned in either case. *)
Theorem snapshot_needs_countryInfo w s items recs :
  net w url_countries = Response s (Some (JArr items)) ->
  traverse as_record items = Ok recs ->
  (Forall (fun r => assoc "countryInfo" r = None) recs ->
   load_country_data w = (Raise (KeyError "countryInfo"), sending url_countries w))
  /\ ((exists r, In r recs /\ assoc "countryInfo" r = None) ->
      (exists r, In r recs /\ assoc "countryInfo" r <> None) ->
      load_country_data w = (Raise AttributeError, sending url_countries w)).
Proof.
  intros Hnet Hrecs.
  change (load_country_data w) with (fetch (fun _ => None) Call_country w).
  rewrite fetch_once. cbn [url_of table_of]. rewrite Hnet.
  unfold country_table. cbn [answer rbind resp_json pd_DataFrame].
  rewrite Hrecs. cbn [rbind]. rewrite getitem_mkframe.
  split.
  - intros Hnone.
    rewrite (assoc_tabulate_None (fun k => map (field k) recs) "countryInfo"
               (record_labels [] recs)); [reflexivity|].
    intros Hin. apply record_labels_In in Hin. destruct Hin as [[]|(r & Hr & Hk)].
    rewrite Forall_forall in Hnone. specialize (Hnone r Hr).
    destruct (assoc_In_names _ _ Hk) as [v Hv]. congruence.
  - intros Hlack (r & Hr & Hhas).
    rewrite (assoc_tabulate (fun k => map (field k) recs) "countryInfo"
               (record_labels [] recs)).
    + cbn [rbind]. now rewrite (traverse_info_get_fail "lat" recs Hlack).
    + apply record_labels_In. right. exists r. split; [exact Hr|].
      destruct (assoc "countryInfo" r) as [v|] eqn:Hv; [|congruence].
      eapply assoc_Some_In; eauto.
Qed.

Lemma snapshot_needs_countryInfo_instance :
  load_country_data (serving url_countries (JArr []))
  = (Raise (KeyError "countryInfo"),
     sending url_countries (serving url_countries (JArr []))).
Proof.
  refine (proj1 (snapshot_needs_countryInfo (serving url_countries (JArr [])) 200 [] []
                   _ _) _).
  - reflexivity.
  - reflexivity.
  - constructor.
Defined.

(** ** The table of the selected year *)






(** X11: when the history table has no row (no date of the reply falls
    in 2020-2023), the year control has nothing to offer and returns
    [None], the table filtered to it is empty, and the confirmed total
    raises [ValueError]: the page does not get as far as its metric
    cards. *)
Theorem empty_history_breaks_confirmed_total to_datetime country w df w' ui :
  load_covid_data to_datetime country w = (Ok df, w') ->
  height df = 0%nat ->
  available_years df = Ok []
  /\ selectbox "Select Year" (@nil Z) ui = (Ok None, ui)
  /\ exists flt,
       filtered df None = Ok flt
       /\ height flt = 0%nat
       /\ total_confirmed flt = Raise ValueError.
Proof.
  intros Hload Hh.
  destruct (history_table_shape _ _ _ _ _ Hload) as (Hnames & Hwf & ycol & Hy & _).
  pose proof (getitem_length _ _ _ Hwf Hy) as Hlen. rewrite Hh in Hlen.
  destruct ycol; [|discriminate]. clear Hlen.
  split; [unfold available_years; rewrite Hy; reflexivity|]. split.
  { unfold selectbox. now destruct (picks ui "Select Year"). }
  unfold filtered. rewrite Hy. cbn [rbind map].
  eexists. split; [reflexivity|]. split.
  - unfold loc. cbn [height]. now rewrite firstn_nil.
  - unfold total_confirmed. rewrite getitem_loc.
    destruct (assoc_In_names "confirmed" (columns df)) as [col Hcol].
    { fold (column_names df). rewrite Hnames. simpl. tauto. }
    unfold getitem. rewrite Hcol. reflexivity.
Qed.

Lemma empty_history_breaks_confirmed_total_instance :
  exists df flt,
    fst (load_covid_data parse_mdy None
           (serving url_global
              (JObj [("cases", JObj [("1/1/24", JInt 9)]);
                     ("deaths", JObj [("1/1/24", JInt 4)])])))
    = Ok df
    /\ filtered df None = Ok flt
    /\ total_confirmed flt = Raise ValueError.
Proof.
  set (w := serving url_global
              (JObj [("cases", JObj [("1/1/24", JInt 9)]);
                     ("deaths", JObj [("1/1/24", JInt 4)])])).
  assert (Hrun : load_covid_data parse_mdy None w
                 = (Ok (mkframe 0 [("date", []); ("confirmed", []); ("deaths", []);
                                   ("recovered", []); ("year", [])]),
                    sending url_global w))
    by (vm_compute; reflexivity).
  destruct (empty_history_breaks_confirmed_total parse_mdy None w _ _ w Hrun eq_refl)
    as (_ & _ & flt & Hf & _ & Ht).
  eexists _, flt. rewrite Hrun. split; [reflexivity|]. split; assumption.
Defined.

(** ** The page as a whole *)

Lemma cached_fetch_keeps_display to_datetime k w :
  shown (snd (fetch_cached to_datetime k w)) = shown w.
Proof.
  rewrite fetch_cached_eq. unfold cache_data.
  destruct (fresh w k); [reflexivity|].
  rewrite fetch_once. now destruct (table_of _ _ _).
Qed.

Lemma vaccine_section_display to_datetime c w w' :
  In c country_options ->
  vaccine_section to_datetime (use_country (Some c)) w = (Ok tt, w') ->
  exists rest, shown w' = (shown w ++ rest)%list
               /\ vaccine_widgets (use_country (Some c)) rest.
Proof.
  intros Hin. unfold use_country.
  destruct (negb (String.eqb c "Global")) eqn:Hg.
  - assert (Hc : String.eqb c "" = false).
    { simpl in Hin. repeat (destruct Hin as [<-|Hin]; [reflexivity|]). contradiction. }
    unfold vaccine_section. rewrite Hc. unfold bind. intros H.
    pose proof (cached_fetch_keeps_display to_datetime (Call_vaccine c) w) as Hshown.
    change (fetch_cached to_datetime (Call_vaccine c))
      with (load_vaccine_data_cached to_datetime c) in Hshown.
    destruct (load_vaccine_data_cached to_datetime c w) as [[df|e] w1];
      [|discriminate H].
    cbn [snd] in Hshown. unfold vaccine_panel in H.
    destruct (negb (empty df)).
    + unfold bind, lift in H.
      destruct (rbind (getitem df "total") (fun t => max_int t)) as [total|];
        [|discriminate H].
      cbn [show] in H. injection H as <-.
      exists [WSubheader ("💉 COVID-19 Vaccinations in " ++ c);
              WMetric "Total Vaccines Administered" (format_comma total);
              WPlotly (Line df "date" ["total"]
                         ("Daily Cumulative Vaccinations: " ++ c ++ " (2020-2023)"))].
      split.
      * cbn [shown showing]. rewrite Hshown, <- !app_assoc. reflexivity.
      * right. eauto.
    + cbn [show] in H. injection H as <-.
      exists [WWarning ("No vaccination data available for " ++ c ++ ".")]. split.
      * cbn [shown showing]. rewrite Hshown. reflexivity.
      * now left.
  - cbn [vaccine_section show]. intros [= <-].
    eexists. split; reflexivity.
Qed.

(** X12: when the snapshot is not memoised and its fetch fails, the pass
    stops there with that exception: the title is all that has been
    shown, the one GET is all that has been sent, and neither the
    history nor the vaccination URL is requested. *)
Theorem failed_snapshot_stops_the_pass to_datetime w e :
  fresh w Call_country = None ->
  country_table (net w url_countries) = Raise e ->
  exists w',
    dashboard to_datetime w = (Raise e, w')
    /\ sent w' = (sent w ++ [url_countries])%list
    /\ shown w'
       = (shown w
          ++ [WTitle "🌍 COVID‑19 Dashboard with Vaccinations (disease.sh, 2020‑2023)"])%list
    /\ memo w' = memo w.
Proof.
  intros Hf He. unfold dashboard, bind. cbn [show].
  change load_country_data_cached with (fetch_cached to_datetime Call_country).
  rewrite cache_miss by exact Hf.
  cbn [table_of url_of net showing]. rewrite He.
  eexists. split; [reflexivity|]. repeat split.
Qed.

Lemma failed_snapshot_stops_the_pass_instance :
  exists w',
    dashboard parse_mdy offline_world = (Raise ConnectionError, w')
    /\ sent w' = [url_countries].
Proof.
  destruct (failed_snapshot_stops_the_pass parse_mdy offline_world ConnectionError
              eq_refl eq_refl) as (w' & Hrun & Hsent & _).
  exists w'. split; [exact Hrun|exact Hsent].
Defined.

Lemma cached_fetch_sent to_datetime k w :
  fresh w k = None ->
  sent (snd (fetch_cached to_datetime k w)) = (sent w ++ [url_of k])%list.
Proof.
  intros Hf. rewrite (cache_miss _ _ _ Hf). now destruct (table_of _ _ _).
Qed.

(** What has been shown once the cards and the chart are out: the two
    fetches before them have shown nothing. *)
Lemma shown_after_trend to_datetime w snapshot w1 key df w2 flt ci sel c d r :
  load_country_data_cached (showing page_title w) = (Ok snapshot, w1) ->
  load_covid_data_cached to_datetime key (showing (bubble_map snapshot) w1)
  = (Ok df, w2) ->
  shown (after_trend flt ci sel c d r w2)
  = (shown w
     ++ [page_title; bubble_map snapshot;
         WMetric "Total Confirmed" (format_comma c);
         WMetric "Total Deaths" (format_comma d);
         WMetric "Total Recovered"
           (match r with Some x => format_comma x | None => "N/A" end);
         trend_chart flt ci sel r])%list.
Proof.
  intros Hs Hh.
  pose proof (cached_fetch_keeps_display to_datetime (Call_covid key)
                (showing (bubble_map snapshot) w1)) as H2.
  change (fetch_cached to_datetime (Call_covid key))
    with (load_covid_data_cached to_datetime key) in H2.
  rewrite Hh in H2. cbn [snd shown showing] in H2.
  pose proof (cached_fetch_keeps_display to_datetime Call_country (showing page_title w))
    as H1.
  change (fetch_cached to_datetime Call_country) with load_country_data_cached in H1.
  rewrite Hs in H1. cbn [snd shown showing] in H1.
  unfold after_trend. cbn [shown showing]. rewrite H2, H1, <- !app_assoc. reflexivity.
Qed.

(** X13: a pass that completes has fetched the snapshot, read the
    country control, fetched the history for what the control returned,
    read the year control on the years of that table, filtered the
    table to the year returned and computed the three totals of the
    filtered table; and it has shown, in this order, the title, the map
    of that snapshot, the three metric cards with those totals, the
    trend chart of the filtered table, and last what the vaccine section
    shows for the selection.  The fetches themselves show nothing. *)
Theorem completed_pass_shows_widgets_in_order to_datetime w w' :
  dashboard to_datetime w = (Ok tt, w') ->
  exists snapshot w1 country_input df w2 years selected_year flt c d r rest,
    load_country_data_cached (showing page_title w) = (Ok snapshot, w1)
    /\ selectbox "Select Country" country_options (showing (bubble_map snapshot) w1)
       = (Ok (Some country_input), showing (bubble_map snapshot) w1)
    /\ load_covid_data_cached to_datetime (use_country (Some country_input))
         (showing (bubble_map snapshot) w1)
       = (Ok df, w2)
    /\ available_years df = Ok years
    /\ selectbox "Select Year" years w2 = (Ok selected_year, w2)
    /\ filtered df selected_year = Ok flt
    /\ total_confirmed flt = Ok c
    /\ total_deaths flt = Ok d
    /\ total_recovered flt = Ok r
    /\ vaccine_widgets (use_country (Some country_input)) rest
    /\ shown w'
       = (shown w
          ++ [page_title; bubble_map snapshot;
              WMetric "Total Confirmed" (format_comma c);
              WMetric "Total Deaths" (format_comma d);
              WMetric "Total Recovered"
                (match r with Some x => format_comma x | None => "N/A" end);
              trend_chart flt (Some country_input) selected_year r]
          ++ rest)%list.
Proof.
  intros H.
  destruct (dashboard_stages _ _ _ H)
    as (snapshot & w1 & ci & df & w2 & years & sel & flt & c & d & r
        & Hs & Hsel & Hin & Hh & Hy & Hys & Hf & Hc & Hd & Hr & Hv).
  destruct (vaccine_section_display _ _ _ _ Hin Hv) as (rest & Hshown & Hrest).
  exists snapshot, w1, ci, df, w2, years, sel, flt, c, d, r, rest.
  repeat (split; [assumption|]).
  rewrite Hshown, (shown_after_trend _ _ _ _ _ _ _ _ _ _ _ _ _ Hs Hh), <- app_assoc.
  reflexivity.
Qed.

Lemma completed_pass_shows_widgets_in_order_instance :
  exists w' snapshot flt,
    dashboard parse_mdy full_world = (Ok tt, w')
    /\ filtered global_history (Some 2020) = Ok flt
    /\ shown w'
       = [page_title; bubble_map snapshot;
          WMetric "Total Confirmed" "5"; WMetric "Total Deaths" "2";
          WMetric "Total Recovered" "N/A";
          WPlotly (Line flt "date" ["confirmed"; "deaths"]
                     "Cumulative COVID-19 Trends: Global (2020)");
          WInfo "Select a specific country to view vaccination data."].
Proof.
  assert (Hok : fst (dashboard parse_mdy full_world) = Ok tt) by (vm_compute; reflexivity).
  assert (Hrun : dashboard parse_mdy full_world
                 = (Ok tt, snd (dashboard parse_mdy full_world))).
  { rewrite <- Hok. apply surjective_pairing. }
  destruct (completed_pass_shows_widgets_in_order _ _ _ Hrun)
    as (snapshot & w1 & ci & df & w2 & years & sel & flt & c & d & r & rest & _).
  eexists _, _, _. split; [exact Hrun|]. split; vm_compute; reflexivity.
Defined.

(** ** The metric cards of the page *)



(** ** The country control of the page *)

Lemma history_url_of_selection c :
  In c country_options ->
  url_of (Call_covid (use_country (Some c)))
  = if String.eqb c "Global" then url_global else url_history c.
Proof.
  intros Hin. simpl in Hin.
  repeat (destruct Hin as [<-|Hin]; [reflexivity|]). contradiction.
Qed.

(** C9: once the snapshot is there, the page reads the country control,
    which offers Global and eight countries and returns one of them, and
    calls the memoised history function with no country when Global was
    returned and with the country otherwise; when that call is not
    answered from the store it requests the global URL, respectively the
    URL of the country, and when it raises the pass raises with it.  In a
    pass that completes with Global selected the vaccine section shows
    the hint and requests nothing; with a country selected it is the
    memoised vaccination fetch for that country followed by its
    rendering, and requests that country's vaccination URL unless the
    store answers. *)
Theorem country_control_selects_fetch_path to_datetime w snapshot w1 :
  load_country_data_cached (showing page_title w) = (Ok snapshot, w1) ->
  (exists eight, country_options = "Global" :: eight
                 /\ length eight = 8%nat /\ ~ In "Global" eight)
  /\ exists country_input,
       let wm := showing (bubble_map snapshot) w1 in
       let selected := use_country (Some country_input) in
       selectbox "Select Country" country_options wm = (Ok (Some country_input), wm)
       /\ In country_input country_options
       /\ (country_input = "Global" -> selected = None)
       /\ (country_input <> "Global" -> selected = Some country_input)
       /\ (fresh wm (Call_covid selected) = None ->
           sent (snd (load_covid_data_cached to_datetime selected wm))
           = (sent wm ++ [if String.eqb country_input "Global"
                          then url_global else url_history country_input])%list)
       /\ (forall e wh,
              load_covid_data_cached to_datetime selected wm = (Raise e, wh) ->
              dashboard to_datetime w = (Raise e, wh))
       /\ (forall w',
              dashboard to_datetime w = (Ok tt, w') ->
              exists df w2 selected_year flt c d r,
                load_covid_data_cached to_datetime selected wm = (Ok df, w2)
                /\ let w5 := after_trend flt (Some country_input) selected_year c d r w2 in
                   (country_input = "Global" ->
                    w' = showing (WInfo "Select a specific country to view vaccination data.")
                                 w5
                    /\ sent w' = sent w2)
                   /\ (country_input <> "Global" ->
                       bind (load_vaccine_data_cached to_datetime country_input)
                            (vaccine_panel country_input) w5
                       = (Ok tt, w')
                       /\ (fresh w5 (Call_vaccine country_input) = None ->
                           sent w' = (sent w2 ++ [url_vaccine country_input])%list))).
Proof.
  intros Hsnap.
  split.
  { eexists. split; [reflexivity|]. split; [reflexivity|].
    simpl. intros H. repeat (destruct H as [H|H]; [discriminate H|]). exact H. }
  set (wm := showing (bubble_map snapshot) w1).
  assert (Hpick : exists ci, selectbox "Select Country" country_options wm
                             = (Ok (Some ci), wm) /\ In ci country_options).
  { unfold selectbox.
    destruct (nth_error country_options (picks wm "Select Country")) as [x|] eqn:E.
    - exists x. split; [reflexivity|]. eapply nth_error_In; eauto.
    - exists "Global". split; [reflexivity|now left]. }
  destruct Hpick as (ci & Hsel & Hin).
  exists ci. cbv zeta. fold wm.
  split; [exact Hsel|]. split; [exact Hin|].
  split; [intros ->; reflexivity|].
  split.
  { intros Hne. unfold use_country.
    destruct (String.eqb ci "Global") eqn:E; [apply String.eqb_eq in E; contradiction|].
    reflexivity. }
  split.
  { intros Hf.
    change (load_covid_data_cached to_datetime (use_country (Some ci)))
      with (fetch_cached to_datetime (Call_covid (use_country (Some ci)))).
    rewrite (cached_fetch_sent _ _ _ Hf). now rewrite history_url_of_selection. }
  split.
  { intros e wh Hraise.
    unfold dashboard, bind. cbn [show].
    unfold page_title in Hsnap. rewrite Hsnap.
    unfold wm, bubble_map in Hsel, Hraise. rewrite Hsel, Hraise. reflexivity. }
  intros w' Hrun.
  destruct (dashboard_stages _ _ _ Hrun)
    as (snapshot' & w1' & ci' & df & w2 & years & sel & flt & c & d & r
        & Hs & Hsel' & _ & Hh & _ & _ & _ & _ & _ & _ & Hv).
  rewrite Hsnap in Hs. injection Hs as <- <-.
  fold wm in Hsel', Hh. rewrite Hsel in Hsel'. injection Hsel' as <-.
  exists df, w2, sel, flt, c, d, r.
  split; [exact Hh|]. cbv zeta. split.
  - intros ->. cbn [use_country String.eqb Ascii.eqb Bool.eqb negb vaccine_section show]
      in Hv.
    injection Hv as <-. split; reflexivity.
  - intros Hne.
    destruct (selection_paths to_datetime ci
                (after_trend flt (Some ci) sel c d r w2) Hin)
      as (_ & _ & _ & Hcountry).
    destruct (Hcountry Hne) as (Huse & _ & Hbind & Hsent).
    rewrite <- Hbind. split; [exact Hv|].
    intros Hf. specialize (Hsent Hf). rewrite Hv in Hsent. exact Hsent.
Qed.

Lemma country_control_selects_fetch_path_instance :
  exists snapshot w',
    fst (load_country_data_cached (showing page_title usa_world)) = Ok snapshot
    /\ dashboard parse_mdy usa_world = (Ok tt, w')
    /\ sent w' = [url_countries; url_history "USA"; url_vaccine "USA"].
Proof.
  assert (Hsnap : load_country_data_cached (showing page_title usa_world)
                  = (Ok snapshot_table,
                     snd (load_country_data_cached (showing page_title usa_world))))
    by (vm_compute; reflexivity).
  destruct (country_control_selects_fetch_path parse_mdy usa_world _ _ Hsnap)
    as (_ & ci & Hsel & _).
  assert (Hok : fst (dashboard parse_mdy usa_world) = Ok tt) by (vm_compute; reflexivity).
  exists snapshot_table, (snd (dashboard parse_mdy usa_world)).
  split; [now rewrite Hsnap|]. split.
  - rewrite <- Hok. apply surjective_pairing.
  - vm_compute. reflexivity.
Defined.

(** ** Vaccination replies of another shape *)

(** X14: a vaccination reply that passes the status check raises when
    its timeline is not a list of dated records: a non-empty object of
    plain values (the date-to-total form of the service) is rejected by
    the frame constructor with [ValueError], and a non-empty list of
    objects none of which has a "date" member raises [KeyError] for
    "date". *)
Theorem misshapen_vaccine_timeline_raises to_datetime c w s m :
  net w (url_vaccine c) = Response s (Some (JObj m)) -> passes s ->
  (forall k v tl,
      assoc "timeline" m = Some (JObj ((k, v) :: tl)) ->
      forallb (fun kv => is_scalar (snd kv)) ((k, v) :: tl) = true ->
      load_vaccine_data to_datetime c w = (Raise ValueError, sending (url_vaccine c) w))
  /\ (forall items recs,
         assoc "timeline" m = Some (JArr items) ->
         traverse as_record items = Ok recs -> recs <> [] ->
         Forall (fun r => assoc "date" r = None) recs ->
         load_vaccine_data to_datetime c w
         = (Raise (KeyError "date"), sending (url_vaccine c) w)).
Proof.
  intros Hnet Hp.
  change (load_vaccine_data to_datetime c w)
    with (fetch to_datetime (Call_vaccine c) w).
  rewrite fetch_once. cbn [url_of table_of]. rewrite Hnet.
  unfold vaccine_table. cbn [answer rbind].
  rewrite (raise_for_status_passes _ _ Hp). cbn [rbind resp_json py_get].
  split.
  - intros k v tl -> Hscalar. cbn [rbind truthy negb pd_DataFrame].
    now rewrite Hscalar.
  - intros items recs -> Hrecs Hne Hnone. cbn [rbind].
    assert (Hitems : truthy (JArr items) = true).
    { destruct items; [|reflexivity]. simpl in Hrecs. injection Hrecs as <-. congruence. }
    rewrite Hitems. cbn [negb pd_DataFrame]. rewrite Hrecs. cbn [rbind].
    unfold restrict_years. rewrite getitem_mkframe.
    rewrite (assoc_tabulate_None (fun k => map (field k) recs) "date"
               (record_labels [] recs)); [reflexivity|].
    intros Hin. apply record_labels_In in Hin. destruct Hin as [[]|(r & Hr & Hk)].
    rewrite Forall_forall in Hnone. specialize (Hnone r Hr).
    destruct (assoc_In_names _ _ Hk) as [v Hv]. congruence.
Qed.

Lemma misshapen_vaccine_timeline_raises_instance :
  fst (load_vaccine_data parse_mdy "USA"
         (serving (url_vaccine "USA")
            (JObj [("country", JStr "USA");
                   ("timeline", JObj [("12/1/20", JInt 100); ("12/2/20", JInt 2500)])])))
  = Raise ValueError.
Proof.
  set (w := serving (url_vaccine "USA")
              (JObj [("country", JStr "USA");
                     ("timeline", JObj [("12/1/20", JInt 100); ("12/2/20", JInt 2500)])])).
  assert (Hp : passes 200) by (left; lia).
  rewrite (proj1 (misshapen_vaccine_timeline_raises parse_mdy "USA" w 200
                    [("country", JStr "USA");
                     ("timeline", JObj [("12/1/20", JInt 100); ("12/2/20", JInt 2500)])]
                    eq_refl Hp)
             "12/1/20" (JInt 100) [("12/2/20", JInt 2500)] eq_refl eq_refl).
  reflexivity.
Defined.
